(** * Bulk price update calculator: the pricing core of [app/page.tsx]
      (and of its older copy [page.tsx]), embedded and verified.

    The program is a React component.  Its state is a handful of
    [useState] cells ([data], [headers], [originalFileName], [error],
    [marginTarget], [markupType]); its operations are callbacks that read
    the cells and write them back.  The embedding is shallow:

    - a JavaScript number is an IEEE 754 binary64 value, modelled by the
      standard library's [spec_float] with precision 53 and [emax = 1024]
      (round to nearest, ties to even), so NaN, the infinities and the
      two zeros are all there;
    - a JavaScript string is a [string]; each character stands for one
      code unit in the range 0..255;
    - a parsed CSV row (papaparse with [header: true] and
      [dynamicTyping: false]) is an association list from column name to
      text, in column order ([Object.keys] enumerates the names in that
      order, after those that are array indices);
    - a [ProductRow] is a record with the fields the TypeScript interface
      types, plus a finite map for the pass-through columns
      ([[key: string]: any]).  The three derived fields are numbers or
      absent, as the interface says: an uploaded file is taken to have no
      columns named [new_price], [margin_percent] or [price_change];
    - the callbacks are functions from state to state.  [Papa.parse],
      [Papa.unparse] and the download of the resulting file are outside
      the embedding: ingestion starts from [results.data], and the export
      ends with the table handed to [Papa.unparse]. *)

From Stdlib Require Import ZArith Bool Ascii String List Lia.
From Stdlib Require Import Floats.SpecFloat DecimalString.
From stdpp Require Import base option list strings gmap.

Local Open Scope Z_scope.

(** ** JavaScript numbers *)

Module Num.

Definition number : Type := spec_float.

Definition prec : Z := 53.
Definition emax : Z := 1024.

Definition add : number -> number -> number := SFadd prec emax.
Definition sub : number -> number -> number := SFsub prec emax.
Definition mul : number -> number -> number := SFmul prec emax.
Definition div : number -> number -> number := SFdiv prec emax.

(** [a < b], [a > b], [a === b] and [a >= b] on numbers. *)
Definition lt (a b : number) : bool := SFltb a b.
Definition gt (a b : number) : bool := SFltb b a.
Definition eq (a b : number) : bool := SFeqb a b.
Definition ge (a b : number) : bool := SFleb b a.

#[global] Instance number_eq_dec : EqDecision number.
Proof. solve_decision. Defined.

Definition isNaN (a : number) : bool :=
  match a with S754_nan => true | _ => false end.

(** The number denoted by an integer literal. *)
Definition ofZ (z : Z) : number := binary_normalize prec emax z 0 false.

Definition zero : number := S754_zero false.
Definition hundred : number := ofZ 100.

(** ToBoolean on a number: [0], [-0] and [NaN] are falsy. *)
Definition truthy (a : number) : bool :=
  match a with
  | S754_zero _ | S754_nan => false
  | _ => true
  end.

(** [a || b] on numbers. *)
Definition or_else (a b : number) : number := if truthy a then a else b.

(** The correctly rounded quotient of two positive integers, and the
    number denoted by the decimal [n * 10^k]. *)
Definition ofQuot (n d : positive) : number :=
  SFdiv prec emax (S754_finite false n 0) (S754_finite false d 0).

Definition ofDecimal (n : Z) (k : Z) : number :=
  match n with
  | Z0 => zero
  | Zpos p =>
      if 0 <=? k then ofZ (n * 10 ^ k) else ofQuot p (Z.to_pos (10 ^ (- k)))
  | Zneg p =>
      SFopp (if 0 <=? k then ofZ (Zpos p * 10 ^ k)
             else ofQuot p (Z.to_pos (10 ^ (- k))))
  end.

(** [floor (x * 10^f + 1/2)] for the exact value [x = m * 2^e]. *)
Definition scaled_half_up (f : Z) (m : Z) (e : Z) : Z :=
  if 0 <=? e then m * 2 ^ e * 10 ^ f
  else (2 * m * 10 ^ f + 2 ^ (- e)) / 2 ^ (- e + 1).

(** [Math.round]: the integer nearest to [x], ties towards +infinity;
    NaN, the infinities and the zeros are returned as they are, and a
    negative [x >= -0.5] gives [-0]. *)
Definition round (x : number) : number :=
  match x with
  | S754_finite s m e =>
      match scaled_half_up 0 (cond_Zopp s (Zpos m)) e with
      | Z0 => S754_zero s
      | n => ofZ n
      end
  | _ => x
  end.

End Num.

Declare Scope num_scope.
Delimit Scope num_scope with num.
Bind Scope num_scope with Num.number.
Infix "+" := Num.add : num_scope.
Infix "-" := Num.sub : num_scope.
Infix "*" := Num.mul : num_scope.
Infix "/" := Num.div : num_scope.

(** ** JavaScript strings *)

Module Str.

Local Open Scope string_scope.

Definition code (c : ascii) : N := N_of_ascii c.

(** The class [\s] (and what [trim] strips), within code units 0..255:
    tab, line feed, vertical tab, form feed, carriage return, space and
    the no-break space. *)
Definition isWhiteSpace (c : ascii) : bool :=
  let n := code c in
  ((9 <=? n) && (n <=? 13) || (n =? 32) || (n =? 160))%N.

Definition isDigit (c : ascii) : bool :=
  let n := code c in ((48 <=? n) && (n <=? 57))%N.

Definition digitValue (c : ascii) : Z := Z.of_N (code c) - 48.

Definition isEmpty (s : string) : bool :=
  match s with EmptyString => true | _ => false end.

(** ToBoolean on a string. *)
Definition truthy (s : string) : bool := negb (isEmpty s).

Fixpoint removeChars (p : ascii -> bool) (s : string) : string :=
  match s with
  | EmptyString => EmptyString
  | String c r => if p c then removeChars p r else String c (removeChars p r)
  end.

Fixpoint trimStart (s : string) : string :=
  match s with
  | String c r => if isWhiteSpace c then trimStart r else s
  | EmptyString => EmptyString
  end.

Fixpoint trimEnd (s : string) : string :=
  match s with
  | EmptyString => EmptyString
  | String c r =>
      let r' := trimEnd r in
      if isWhiteSpace c && isEmpty r' then EmptyString else String c r'
  end.

Definition trim (s : string) : string := trimStart (trimEnd s).

Definition startsWith (s p : string) : bool := String.prefix p s.

(** [s.replace(pat, '')] with a string pattern: the first occurrence
    only. *)
Fixpoint removeFirst (pat s : string) : string :=
  if String.prefix pat s then
    String.substring (String.length pat) (String.length s - String.length pat) s
  else
    match s with
    | EmptyString => EmptyString
    | String c r => String c (removeFirst pat r)
    end.

Definition join (sep : string) (l : list string) : string :=
  String.concat sep l.

(** [toLowerCase] on code units 0..255. *)
Definition lowerChar (c : ascii) : ascii :=
  let n := code c in
  if ((65 <=? n) && (n <=? 90) || (192 <=? n) && (n <=? 222) && negb (n =? 215))%N
  then ascii_of_N (n + 32) else c.

Fixpoint toLowerCase (s : string) : string :=
  match s with
  | EmptyString => EmptyString
  | String c r => String (lowerChar c) (toLowerCase r)
  end.

Definition isLowerAlnum (c : ascii) : bool :=
  let n := code c in
  ((97 <=? n) && (n <=? 122))%N || isDigit c.

(** [s.replace(/[^a-z0-9]+/g, '-')]; [inRun] tells that the previous
    character already belonged to the run being replaced. *)
Fixpoint hyphenate (inRun : bool) (s : string) : string :=
  match s with
  | EmptyString => EmptyString
  | String c r =>
      if isLowerAlnum c then String c (hyphenate false r)
      else if inRun then hyphenate true r
      else String "-" (hyphenate true r)
  end.

(** Decimal digits of a natural number, ["0"] for zero. *)
Definition ofN (n : N) : string := NilZero.string_of_uint (N.to_uint n).
Definition ofNat (n : nat) : string := ofN (N.of_nat n).

(** The longest prefix of decimal digits, and what follows it. *)
Fixpoint spanDigits (s : string) : string * string :=
  match s with
  | String c r =>
      if isDigit c then let '(d, t) := spanDigits r in (String c d, t)
      else (EmptyString, s)
  | EmptyString => (EmptyString, EmptyString)
  end.

Fixpoint digitsValue (acc : Z) (s : string) : Z :=
  match s with
  | EmptyString => acc
  | String c r => digitsValue (10 * acc + digitValue c) r
  end.

Definition signOf (s : string) : bool * string :=
  match s with
  | String "+" r => (false, r)
  | String "-" r => (true, r)
  | _ => (false, s)
  end.

(** The exponent part [e<sign><digits>], if there is a well-formed one
    at the head of [s]; otherwise the literal ends before it. *)
Definition exponentOf (s : string) : Z :=
  match s with
  | String c r =>
      if ((code c =? 101) || (code c =? 69))%N then
        let '(neg, r') := signOf r in
        let '(d, _) := spanDigits r' in
        if isEmpty d then 0 else cond_Zopp neg (digitsValue 0 d)
      else 0
  | EmptyString => 0
  end.

(** The value of the longest prefix that is a StrUnsignedDecimalLiteral;
    [None] when there is no such prefix. *)
Definition parseUnsigned (s : string) : option Num.number :=
  if String.prefix "Infinity" s then Some (S754_infinity false)
  else
    let '(ip, r1) := spanDigits s in
    let '(fp, r2) :=
      match r1 with
      | String "." r => spanDigits r
      | _ => (EmptyString, r1)
      end in
    if isEmpty ip && isEmpty fp then None
    else
      Some (Num.ofDecimal (digitsValue 0 (ip ++ fp))
              (exponentOf r2 - Z.of_nat (String.length fp))).

(** [parseFloat] on a string. *)
Definition parseFloat (s : string) : Num.number :=
  let '(neg, u) := signOf (trimStart s) in
  match parseUnsigned u with
  | None => S754_nan
  | Some x => if neg then SFopp x else x
  end.

End Str.

(** ** Number to string: [toFixed] and the part of ToString it reaches *)

Module Fmt.

Local Open Scope string_scope.

Definition digitsOf (z : Z) : string := Str.ofN (Z.to_N z).

Fixpoint zeros (n : nat) : string :=
  match n with
  | O => EmptyString
  | S n' => String "0" (zeros n')
  end.

(** Steps 10 and 11 of [Number.prototype.toFixed]: the digits of [n]
    with a point before the last [f] of them, padded with zeros on the
    left up to [f + 1] digits. *)
Definition fixedDigits (f : nat) (n : Z) : string :=
  let m := digitsOf n in
  match f with
  | O => m
  | _ =>
      let k := String.length m in
      let m' := zeros (S f - k) ++ m in
      let k' := String.length m' in
      String.substring 0 (k' - f) m' ++ "." ++ String.substring (k' - f) f m'
  end.

(** The least number of digits [k] (tried upwards, at most [fuel]
    times) and the [k]-digit integer [s] such that [s * 10^(n-k)]
    denotes [x], where [z] is the exact value of [x] and has [n]
    digits; of two such [s] the one nearer to [z], and the even one on
    a tie. *)
Fixpoint shortest (fuel : nat) (x : Num.number) (z n k : Z) : Z * Z :=
  let p := 10 ^ (n - k) in
  let lo := z / p in
  let okLo := bool_decide (Num.ofZ (lo * p) = x) in
  let okHi := bool_decide (Num.ofZ ((lo + 1) * p) = x) in
  let dLo := z - lo * p in
  let dHi := (lo + 1) * p - z in
  match fuel with
  | O => (lo, k)
  | S fuel' =>
      if okLo && okHi then
        (if (dLo <? dHi)%Z then lo
         else if (dHi <? dLo)%Z then lo + 1
         else if Z.even lo then lo else lo + 1, k)
      else if okLo then (lo, k)
      else if okHi then (lo + 1, k)
      else shortest fuel' x z n (k + 1)
  end.

(** Number::toString for a finite [x >= 10^21], whose exact value is the
    integer [z]: always the exponential form. *)
Definition toStringLarge (x : Num.number) (z : Z) : string :=
  let n := Z.of_nat (String.length (digitsOf z)) in
  let '(s, k) := shortest 17 x z n 1 in
  let '(d, ex) := if (s =? 10 ^ k)%Z then ("1", n) else (digitsOf s, n - 1) in
  let first := String.substring 0 1 d in
  let others := String.substring 1 (String.length d - 1) d in
  first ++ (if Str.isEmpty others then "" else "." ++ others)
        ++ "e+" ++ digitsOf ex.

(** [x.toFixed(f)]. *)
Definition toFixed (f : nat) (x : Num.number) : string :=
  match x with
  | S754_nan => "NaN"
  | S754_infinity s => if s then "-Infinity" else "Infinity"
  | S754_zero _ => fixedDigits f 0
  | S754_finite s m e =>
      let a := S754_finite false m e in
      (if s then "-" else "") ++
      (if ((0 <=? e) && (10 ^ 21 <=? Zpos m * 2 ^ e))%Z
       then toStringLarge a (Zpos m * 2 ^ e)
       else fixedDigits f (Num.scaled_half_up (Z.of_nat f) (Zpos m) e))
  end.

End Fmt.

(** ** The data model *)

Local Open Scope string_scope.

(** A row as papaparse hands it over: column name and cell text, in
    column order.  A column the row has no cell for is absent: a row
    with fewer cells than the header row has only the first columns.  (A
    row with more cells than the header is not among these rows.) *)
Definition RawRow : Type := list (string * string).

(** [row[field]]: [None] is [undefined]. *)
Fixpoint getField (row : RawRow) (field : string) : option string :=
  match row with
  | [] => None
  | (k, v) :: rest => if String.eqb k field then Some v else getField rest field
  end.

(** A property name that is an array index: the canonical decimal text
    of an integer from 0 to 2^32 - 2. *)
Definition isArrayIndex (k : string) : bool :=
  match k with
  | EmptyString => false
  | String c r =>
      Str.isEmpty (snd (Str.spanDigits k))
      && (Str.isEmpty r || negb (Ascii.eqb c "0"))
      && (Str.digitsValue 0 k <=? 4294967294)%Z
  end.

(** [k] put in its place among index names in ascending order. *)
Fixpoint insertIndex (k : string) (l : list string) : list string :=
  match l with
  | [] => [k]
  | x :: r =>
      if (Str.digitsValue 0 k <=? Str.digitsValue 0 x)%Z then k :: l
      else x :: insertIndex k r
  end.

(** [Object.keys(row)]: the names that are array indices first, in
    ascending numeric order, then the other names in the order the
    columns were added. *)
Definition keys (row : RawRow) : list string :=
  let names := map fst row in
  foldr insertIndex [] (List.filter isArrayIndex names)
  ++ List.filter (fun k => negb (isArrayIndex k)) names.

(** [columns.includes(field)]. *)
Definition includes (columns : list string) (field : string) : bool :=
  existsb (String.eqb field) columns.

Record ProductRow : Type := mkProductRow {
  sku : string;
  title : string;
  current_price : Num.number;
  cost_price : Num.number;
  new_price : option Num.number;
  margin_percent : option Num.number;
  price_change : option Num.number;
  (** the remaining properties, [[key: string]: any]: the cells spread
      from the parsed row, and [new_price_shopify] *)
  extra : gmap string string
}.

Inductive MarkupType : Type := margin | markup.

(** The [useState] cells of the component. *)
Record State : Type := mkState {
  data : list ProductRow;
  headers : list string;
  marginTarget : Num.number;
  markupType : MarkupType;
  originalFileName : string;
  error : string
}.

Definition initialState : State :=
  {| data := []; headers := []; marginTarget := Num.ofZ 40;
     markupType := margin; originalFileName := ""; error := "" |}.

Definition setData (v : list ProductRow) (st : State) : State :=
  {| data := v; headers := headers st; marginTarget := marginTarget st;
     markupType := markupType st; originalFileName := originalFileName st;
     error := error st |}.

Definition setHeaders (v : list string) (st : State) : State :=
  {| data := data st; headers := v; marginTarget := marginTarget st;
     markupType := markupType st; originalFileName := originalFileName st;
     error := error st |}.

Definition setOriginalFileName (v : string) (st : State) : State :=
  {| data := data st; headers := headers st; marginTarget := marginTarget st;
     markupType := markupType st; originalFileName := v; error := error st |}.

Definition setError (v : string) (st : State) : State :=
  {| data := data st; headers := headers st; marginTarget := marginTarget st;
     markupType := markupType st; originalFileName := originalFileName st;
     error := v |}.

Definition resetAll (st : State) : State :=
  setError "" (setOriginalFileName "" (setHeaders [] (setData [] st))).

(** ** Ingestion: [cleanNumber] and [handleFileUpload] *)

(** The characters the regular expression of [cleanNumber] removes: the
    dollar sign, the comma, white space, and the double and single quote
    characters. *)
Definition isStripped (c : ascii) : bool :=
  let n := Str.code c in
  ((n =? 36) || (n =? 44) || (n =? 34) || (n =? 39))%N || Str.isWhiteSpace c.

Definition cleanNumber (value : option string) : Num.number :=
  match value with
  | None => Num.zero
  | Some v =>
      if negb (Str.truthy v) then Num.zero
      else
        let cleaned := Str.removeChars isStripped v in
        let num := Str.parseFloat cleaned in
        if Num.isNaN num then Num.zero else num
  end.

Definition skuField : string := "Variant SKU".
Definition priceField : string := "Variant Price".
Definition costField : string := "Cost per item".
Definition titleField : string := "Title".

(** [raw ? String(raw).trim() : fallback]. *)
Definition trimmedOr (raw : option string) (fallback : string) : string :=
  match raw with
  | Some v => if Str.truthy v then Str.trim v else fallback
  | None => fallback
  end.

(** The body of [parsed.map((row, index) => ...)].  The cells of the
    parsed row are all kept in [extra]; the three derived fields of the
    record are the numbers the pricing pass writes, so they start absent
    (a cell the file has under one of their names stays in [extra] as
    text and is not read as a number by this embedding). *)
Definition processRow (index : nat) (row : RawRow) : ProductRow :=
  let rawPrice := getField row priceField in
  let rawCost := getField row costField in
  let rawSku := getField row skuField in
  let rawTitle := getField row titleField in
  let cleanPrice := cleanNumber rawPrice in
  let cleanCost := cleanNumber rawCost in
  {| sku := trimmedOr rawSku ("ROW-" ++ Str.ofNat (index + 1));
     title := trimmedOr rawTitle "Unknown Product";
     current_price := cleanPrice;
     cost_price := cleanCost;
     new_price := None;
     margin_percent := None;
     price_change := None;
     extra := list_to_map row |}.

(** The predicate of [.filter(row => row.sku && !row.sku.startsWith('ROW-'))]. *)
Definition keepRow (row : ProductRow) : bool :=
  Str.truthy (sku row) && negb (Str.startsWith (sku row) "ROW-").

Definition missingColumnsOf (columns : list string) : list string :=
  (if negb (includes columns skuField) then [skuField] else []) ++
  (if negb (includes columns priceField) then [priceField] else []).

Definition processedOf (parsed : list RawRow) : list ProductRow :=
  List.filter keepRow (imap processRow parsed).

Definition msgEmpty : string := "CSV file is empty".
Definition msgMissing (missingColumns columns : list string) : string :=
  "Missing columns: " ++ Str.join ", " missingColumns ++
  ". Found: " ++ Str.join ", " columns.
Definition msgNoValid : string :=
  "No valid products found. Check your CSV has data in the Variant SKU column.".

(** The [complete] callback given to [Papa.parse]; [parsed] is
    [results.data]. *)
Definition complete (parsed : list RawRow) (st : State) : State :=
  match parsed with
  | [] => setError msgEmpty st
  | firstRow :: _ =>
      let columns := keys firstRow in
      let missingColumns := missingColumnsOf columns in
      if (0 <? length missingColumns)%nat then
        setError (msgMissing missingColumns columns) st
      else
        let st := setHeaders columns st in
        let processed := processedOf parsed in
        if (length processed =? 0)%nat then setError msgNoValid st
        else setData processed st
  end.

(** The uploaded file: its name, and the rows papaparse reads from it. *)
Record File : Type := mkFile { name : string; rows : list RawRow }.

(** [file] is [event.target.files?.[0]]. *)
Definition handleFileUpload (file : option File) (st : State) : State :=
  match file with
  | None => st
  | Some f =>
      let st := setError "" st in
      let st := setOriginalFileName (Str.removeFirst ".csv" (name f)) st in
      complete (rows f) st
  end.

(** ** The pricing pass: [calculatePrices] *)

Local Open Scope num_scope.

(** [Math.round(x * 100) / 100]. *)
Definition round2 (x : Num.number) : Num.number :=
  Num.round (x * Num.hundred) / Num.hundred.

(** The price before rounding, for a cost the guard let through. *)
Definition rawPrice (method : MarkupType) (target cost : Num.number)
  : Num.number :=
  match method with
  | margin => cost / (Num.ofZ 1 - target / Num.hundred)
  | markup => cost * (Num.ofZ 1 + target / Num.hundred)
  end.

(** The fields computed after the guard, from [cost] and the row. *)
Definition pricedRow (method : MarkupType) (target cost : Num.number)
    (row : ProductRow) : ProductRow :=
  let newPrice := rawPrice method target cost in
  let newPrice := round2 newPrice in
  let marginAmount := newPrice - cost in
  let marginPercent :=
    if Num.gt newPrice Num.zero
    then (marginAmount / newPrice) * Num.hundred else Num.zero in
  {| sku := sku row;
     title := title row;
     current_price := current_price row;
     cost_price := cost_price row;
     new_price := Some newPrice;
     margin_percent := Some (round2 marginPercent);
     price_change := Some (round2 (newPrice - current_price row));
     extra := <["new_price_shopify" := Fmt.toFixed 2 newPrice]> (extra row) |}.

(** The body of [data.map(row => ...)] in [app/page.tsx]. *)
Definition priceRow (method : MarkupType) (target : Num.number)
    (row : ProductRow) : ProductRow :=
  let cost := Num.or_else (cost_price row) Num.zero in
  if Num.eq cost Num.zero then
    {| sku := sku row;
       title := title row;
       current_price := current_price row;
       cost_price := cost_price row;
       new_price := Some (current_price row);
       margin_percent := Some Num.zero;
       price_change := Some Num.zero;
       extra := extra row |}
  else pricedRow method target cost row.

Definition calculatePrices (st : State) : State :=
  let calculated := map (priceRow (markupType st) (marginTarget st)) (data st) in
  setData calculated st.

(** The older copy, [page.tsx]: the same pass without the zero-cost
    guard. *)
Module Legacy.

Definition priceRow (method : MarkupType) (target : Num.number)
    (row : ProductRow) : ProductRow :=
  let cost := Num.or_else (cost_price row) Num.zero in
  pricedRow method target cost row.

Definition calculatePrices (st : State) : State :=
  let calculated :=
    map (priceRow (markupType st) (marginTarget st)) (data st) in
  setData calculated st.

End Legacy.

(** ** The import export: [downloadShopifyFormat] *)

(** What a cell of the exported table can hold. *)
Inductive Cell : Type :=
| CUndefined
| CNumber (n : Num.number)
| CString (s : string).

Record ShopifyRow : Type := mkShopifyRow {
  Handle : string;
  Title : string;
  Variant_SKU : string;
  Variant_Price : Cell;
  Cost_per_item : Num.number
}.

(** [row.new_price_shopify || row.new_price]. *)
Definition exportPrice (row : ProductRow) : Cell :=
  match extra row !! "new_price_shopify" with
  | Some s =>
      if Str.truthy s then CString s
      else match new_price row with Some n => CNumber n | None => CUndefined end
  | None =>
      match new_price row with Some n => CNumber n | None => CUndefined end
  end.

(** [row.Handle || row.sku?.toLowerCase().replace(/[^a-z0-9]+/g, '-')]. *)
Definition exportHandle (row : ProductRow) : string :=
  let derived := Str.hyphenate false (Str.toLowerCase (sku row)) in
  match extra row !! "Handle" with
  | Some h => if Str.truthy h then h else derived
  | None => derived
  end.

Definition shopifyRow (row : ProductRow) : ShopifyRow :=
  {| Handle := exportHandle row;
     Title := title row;
     Variant_SKU := sku row;
     Variant_Price := exportPrice row;
     Cost_per_item := cost_price row |}.

(** [downloadShopifyFormat], up to the table it hands to [Papa.unparse]. *)
Definition downloadShopifyFormat (st : State) : list ShopifyRow :=
  let shopifyData := map shopifyRow (data st) in
  shopifyData.

(** ** The summary: [stats] *)

(** [field || 0] for an optional numeric field. *)
Definition orZero (field : option Num.number) : Num.number :=
  match field with
  | Some x => Num.or_else x Num.zero
  | None => Num.zero
  end.

Record Stats : Type := mkStats {
  total : nat;
  avgMargin : Cell;
  priceIncreases : nat;
  priceDecreases : nat;
  zeroCost : nat
}.

Definition stats (st : State) : Stats :=
  let d := data st in
  {| total := length d;
     avgMargin :=
       if (0 <? length d)%nat
       then CString (Fmt.toFixed 1
              (fold_left (fun acc row => acc + orZero (margin_percent row))
                 d Num.zero
               / Num.ofZ (Z.of_nat (length d))))
       else CNumber Num.zero;
     priceIncreases :=
       length (List.filter
         (fun row => Num.gt (orZero (price_change row)) Num.zero) d);
     priceDecreases :=
       length (List.filter
         (fun row => Num.lt (orZero (price_change row)) Num.zero) d);
     zeroCost :=
       length (List.filter
         (fun row => Num.eq (Num.or_else (cost_price row) Num.zero) Num.zero) d)
  |}.

(** ** Notions and sample data used by the statements *)

(** A row for the worked examples: the given cost and current price and
    nothing else. *)
Definition sampleRow (id : string) (price cost : Num.number) : ProductRow :=
  {| sku := id; title := "Unknown Product";
     current_price := price; cost_price := cost;
     new_price := None; margin_percent := None; price_change := None;
     extra := ∅ |}.

Definition sampleState (method : MarkupType) (target : Num.number)
    (d : list ProductRow) : State :=
  {| data := d; headers := [skuField; priceField; costField];
     marginTarget := target; markupType := method;
     originalFileName := "products"; error := "" |}.

(** The arithmetic mean, as the specification words it: the sum of the
    values divided by their count. *)
Definition arithmeticMean (xs : list Num.number) : Num.number :=
  fold_left Num.add xs Num.zero / Num.ofZ (Z.of_nat (length xs)).

(** A row counts as a price increase (decrease) when it has a
    [price_change] strictly above (below) zero. *)
Definition isIncrease (row : ProductRow) : bool :=
  match price_change row with
  | Some x => Num.gt x Num.zero
  | None => false
  end.

Definition isDecrease (row : ProductRow) : bool :=
  match price_change row with
  | Some x => Num.lt x Num.zero
  | None => false
  end.

(** The margin of a row as the summary reads it,
    [row.margin_percent || 0]: a row without a margin counts as 0. *)
Definition marginOf (row : ProductRow) : Num.number :=
  orZero (margin_percent row).

(** A margin that [m || 0] leaves as it is: a number (not NaN) other
    than [-0]. *)
Definition ordinaryMargin (m : Num.number) : Prop :=
  Num.isNaN m = false /\ m <> S754_zero true.

(** The price change of a row as the summary reads it. *)
Definition changeOf (row : ProductRow) : Num.number :=
  orZero (price_change row).

Definition withMargin (m : Num.number) : ProductRow :=
  {| sku := "M"; title := "Unknown Product";
     current_price := Num.zero; cost_price := Num.zero;
     new_price := Some Num.zero; margin_percent := Some m;
     price_change := Some Num.zero; extra := ∅ |}.

Definition withChange (c : Num.number) : ProductRow :=
  {| sku := "P"; title := "Unknown Product";
     current_price := Num.zero; cost_price := Num.zero;
     new_price := Some Num.zero; margin_percent := Some Num.zero;
     price_change := Some c; extra := ∅ |}.

(** The sign of a rounded result is the sign asked for. *)
Definition hasSign (s : bool) (x : Num.number) : Prop :=
  match x with
  | S754_zero s' | S754_infinity s' | S754_finite s' _ _ => s' = s
  | S754_nan => True
  end.

Fixpoint allDigits (s : string) : bool :=
  match s with
  | EmptyString => true
  | String c r => Str.isDigit c && allDigits r
  end.

(** An upload of one product with a negative price and a negative cost. *)
Definition negativeFile : File :=
  {| name := "products.csv";
     rows := [[("Variant SKU", "A-1"); ("Variant Price", "-5");
               ("Cost per item", "-2.50")]] |}.

(** An upload of two products; the identifier of the first begins with
    [ROW-]. *)
Definition rowPrefixFile : File :=
  {| name := "rowing.csv";
     rows := [[("Variant SKU", "ROW-7A"); ("Variant Price", "10")];
              [("Variant SKU", "A-1"); ("Variant Price", "12")]] |}.


Definition goodFile : File :=
  {| name := "products.csv";
     rows := [[("Variant SKU", "A-1"); ("Variant Price", "12")]] |}.

(** A file with the required columns whose only row has no identifier. *)
Definition blankIdFile : File :=
  {| name := "blank.csv";
     rows := [[("Title", "Oar"); ("Variant SKU", ""); ("Variant Price", "5")]] |}.

(** The price cell of a row that only carries a [new_price]. *)
Definition priceOrNothing (p : option Num.number) : Cell :=
  match p with
  | Some n => CNumber n
  | None => CUndefined
  end.

(** The text ends in a point followed by exactly two characters. *)
Definition twoDecimals (t : string) : Prop :=
  exists a b, t = a ++ "." ++ b /\ String.length b = 2%nat.

(** Finite and below 10^21 in magnitude: the numbers [toFixed] prints in
    fixed notation. *)
Definition fixedRange (x : Num.number) : bool :=
  match x with
  | S754_zero _ => true
  | S754_finite _ m e => negb ((0 <=? e)%Z && (10 ^ 21 <=? Z.pos m * 2 ^ e)%Z)
  | _ => false
  end.

(** The row carries no (non-empty) [new_price_shopify] text of its own. *)
Definition noExportText (row : ProductRow) : Prop :=
  forall s, extra row !! "new_price_shopify" = Some s -> s = "".

(** A target of 40 under the margin method, a product that costs 60 and
    one whose cost is unknown. *)
Definition mixedState : State :=
  sampleState margin (Num.ofZ 40)
    [sampleRow "A-1" (Num.ofZ 90) (Num.ofZ 60);
     sampleRow "B-2" (Num.ofDecimal 125 (-1)) Num.zero].

(** A target of 40 under the margin method and one product, priced 10,
    whose cost is 0. *)
Definition zeroCostState : State :=
  sampleState margin (Num.ofZ 40) [sampleRow "B-2" (Num.ofZ 10) Num.zero].

(** An upload of a product that costs 60 and of one without cost. *)
Definition mixedFile : File :=
  {| name := "products.csv";
     rows := [[("Variant SKU", "A-1"); ("Variant Price", "90");
               ("Cost per item", "60")];
              [("Variant SKU", "B-2"); ("Variant Price", "12.50");
               ("Cost per item", "")]] |}.




(** ** The remaining handlers and the view *)

Definition setMarginTarget (v : Num.number) (st : State) : State :=
  {| data := data st; headers := headers st; marginTarget := v;
     markupType := markupType st; originalFileName := originalFileName st;
     error := error st |}.

Definition setMarkupType (v : MarkupType) (st : State) : State :=
  {| data := data st; headers := headers st; marginTarget := marginTarget st;
     markupType := v; originalFileName := originalFileName st;
     error := error st |}.

(** The [onChange] of the target input:
    [setMarginTarget(parseFloat(e.target.value) || 0)]. *)
Definition onTargetChange (value : string) (st : State) : State :=
  setMarginTarget (Num.or_else (Str.parseFloat value) Num.zero) st.

(** What the user can do: choose a file (or cancel the dialog), press
    Calculate, press Upload New File, edit the target, pick a method.
    The downloads write no state. *)
Inductive Event : Type :=
| Upload (file : option File)
| Calculate
| Reset
| TargetChange (value : string)
| MethodClick (method : MarkupType).

Definition handle (ev : Event) (st : State) : State :=
  match ev with
  | Upload file => handleFileUpload file st
  | Calculate => calculatePrices st
  | Reset => resetAll st
  | TargetChange value => onTargetChange value st
  | MethodClick method => setMarkupType method st
  end.

(** The states the component can be in: the initial one, and what the
    handlers make of them, in any order (the conditions under which the
    page shows each control only restrict the orders). *)
Inductive reachable : State -> Prop :=
| reachable_initial : reachable initialState
| reachable_handle (ev : Event) (st : State) :
    reachable st -> reachable (handle ev st).

(** [field && ...] on an optional numeric field. *)
Definition truthyField (field : option Num.number) : bool :=
  match field with
  | Some x => Num.truthy x
  | None => false
  end.

(** [data[0]?.new_price], the condition under which the page shows the
    summary and the two download buttons. *)
Definition showResults (st : State) : bool :=
  match data st with
  | row :: _ => truthyField (new_price row)
  | [] => false
  end.



(** ** Notions used by the further properties *)

(** No character of [s] is [x]. *)
Fixpoint noChar (x : ascii) (s : string) : bool :=
  match s with
  | EmptyString => true
  | String c r => negb (Ascii.eqb c x) && noChar x r
  end.

Fixpoint allChars (p : ascii -> bool) (s : string) : bool :=
  match s with
  | EmptyString => true
  | String c r => p c && allChars p r
  end.

(** A lower-case letter, a digit or a hyphen. *)
Definition isSlugChar (c : ascii) : bool :=
  Str.isLowerAlnum c || Ascii.eqb c "-".

(** No two hyphens of [s] are adjacent; [prev] tells that the character
    before [s] was a hyphen. *)
Fixpoint noHyphenPair (prev : bool) (s : string) : bool :=
  match s with
  | EmptyString => true
  | String c r =>
      if Ascii.eqb c "-" then negb prev && noHyphenPair true r
      else noHyphenPair false r
  end.

(** What ingestion guarantees of a row and the pricing pass keeps: prices
    that are numbers, and an identifier that is not empty, has no white
    space around it and does not begin with [ROW-]. *)
Definition rowWellFormed (row : ProductRow) : Prop :=
  Num.isNaN (current_price row) = false /\
  Num.isNaN (cost_price row) = false /\
  sku row <> "" /\
  Str.trim (sku row) = sku row /\
  Str.startsWith (sku row) "ROW-" = false.

Definition noDerived (row : ProductRow) : Prop :=
  new_price row = None /\ margin_percent row = None /\ price_change row = None.

Definition allDerived (row : ProductRow) : Prop :=
  is_Some (new_price row) /\ is_Some (margin_percent row) /\
  is_Some (price_change row).

(** The identifier a parsed row is loaded under, if it is loaded: the
    trimmed text of its identifier cell, when that is not empty and does
    not begin with [ROW-]. *)
Definition identifierOf (raw : RawRow) : option string :=
  match getField raw skuField with
  | Some v =>
      if Str.truthy (Str.trim v) && negb (Str.startsWith (Str.trim v) "ROW-")
      then Some (Str.trim v) else None
  | None => None
  end.

(** A parsed row without cells under the names of the three derived
    fields. *)
Definition plainRaw (raw : RawRow) : Prop :=
  getField raw "new_price" = None /\
  getField raw "margin_percent" = None /\
  getField raw "price_change" = None.

(** A file none of whose columns is named like a derived field. *)
Definition plainEvent (ev : Event) : Prop :=
  match ev with
  | Upload (Some f) => Forall plainRaw (rows f)
  | _ => True
  end.

(** The states reached when every uploaded file is such a file. *)
Inductive reachablePlain : State -> Prop :=
| reachablePlain_initial : reachablePlain initialState
| reachablePlain_handle (ev : Event) (st : State) :
    plainEvent ev -> reachablePlain st -> reachablePlain (handle ev st).

(** The row has none of the three derived fields, neither as a number
    nor as text taken over from the file. *)
Definition unpriced (row : ProductRow) : Prop :=
  noDerived row /\
  extra row !! "new_price" = None /\
  extra row !! "margin_percent" = None /\
  extra row !! "price_change" = None.

(** * Properties *)

(** ** Numbers: comparisons and truthiness *)

(** Case analysis on a number: the two zeros, the two infinities, NaN,
    and the finite numbers of either sign. *)
Ltac number_cases x :=
  let s := fresh "s" in
  let m := fresh "m" in
  let e := fresh "e" in
  destruct x as [s|s| |s m e]; try destruct s.

Lemma or_else_truthy (c d : Num.number) :
  Num.truthy c = true -> Num.or_else c d = c.
Proof. unfold Num.or_else. now intros ->. Qed.

Lemma or_else_falsy (c d : Num.number) :
  Num.truthy c = false -> Num.or_else c d = d.
Proof. unfold Num.or_else. now intros ->. Qed.

Lemma eq_zero_falsy (c : Num.number) :
  Num.eq c Num.zero = true -> Num.truthy c = false.
Proof. number_cases c; now cbn. Qed.

Lemma truthy_eq_zero (c : Num.number) :
  Num.truthy c = true -> Num.eq c Num.zero = false.
Proof. number_cases c; now cbn. Qed.

Lemma gt_zero_truthy (c : Num.number) :
  Num.gt c Num.zero = true -> Num.truthy c = true.
Proof. number_cases c; now cbn. Qed.

(** The guard [cost === 0] of the pricing pass fires exactly on a falsy
    [cost_price]: [0], [-0] or [NaN]. *)
Lemma guard_fires_iff (c : Num.number) :
  Num.eq (Num.or_else c Num.zero) Num.zero = true <-> Num.truthy c = false.
Proof. number_cases c; now cbn. Qed.

(** ** The pricing pass, row by row *)

Lemma calculatePrices_lookup (st : State) (i : nat) :
  data (calculatePrices st) !! i =
  priceRow (markupType st) (marginTarget st) <$> data st !! i.
Proof. unfold calculatePrices. cbn. apply list_lookup_fmap. Qed.

Lemma priceRow_zero_cost method target row :
  Num.truthy (cost_price row) = false ->
  priceRow method target row =
  {| sku := sku row; title := title row;
     current_price := current_price row; cost_price := cost_price row;
     new_price := Some (current_price row);
     margin_percent := Some Num.zero; price_change := Some Num.zero;
     extra := extra row |}.
Proof.
  intros H. unfold priceRow.
  now rewrite (proj2 (guard_fires_iff _) H).
Qed.

Lemma priceRow_known_cost method target row :
  Num.truthy (cost_price row) = true ->
  priceRow method target row = pricedRow method target (cost_price row) row.
Proof.
  intros H. unfold priceRow. rewrite (or_else_truthy _ _ H).
  now rewrite (truthy_eq_zero _ H).
Qed.

(** C1. For a row whose cost is greater than zero the pricing pass stores
    as [new_price] the cost divided by [1 - target/100] under the margin
    method, and the cost times [1 + target/100] under the markup method,
    rounded by [Math.round(x * 100) / 100].  With cost 60 and target 40
    the margin method gives [new_price] 100 (exported as 100.00) and
    [margin_percent] 40, and the markup method gives [new_price] 84
    (exported as 84.00) and [margin_percent] 28.57. *)
Theorem C1_new_price_formula :
  (forall (st : State) (i : nat) (row : ProductRow),
      data st !! i = Some row ->
      Num.gt (cost_price row) Num.zero = true ->
      exists row',
        data (calculatePrices st) !! i = Some row' /\
        new_price row' =
          Some (round2
            (match markupType st with
             | margin =>
                 cost_price row / (Num.ofZ 1 - marginTarget st / Num.hundred)
             | markup =>
                 cost_price row * (Num.ofZ 1 + marginTarget st / Num.hundred)
             end))) /\
  (forall row : ProductRow,
      cost_price row = Num.ofZ 60 ->
      let viaMargin := priceRow margin (Num.ofZ 40) row in
      let viaMarkup := priceRow markup (Num.ofZ 40) row in
      new_price viaMargin = Some (Num.ofZ 100) /\
      margin_percent viaMargin = Some (Num.ofZ 40) /\
      extra viaMargin !! "new_price_shopify" = Some "100.00"%string /\
      new_price viaMarkup = Some (Num.ofZ 84) /\
      margin_percent viaMarkup = Some (Num.ofDecimal 2857 (-2)) /\
      extra viaMarkup !! "new_price_shopify" = Some "84.00"%string).
Proof.
  split.
  - intros st i row Hrow Hcost.
    exists (priceRow (markupType st) (marginTarget st) row). split.
    + rewrite calculatePrices_lookup, Hrow. reflexivity.
    + rewrite (priceRow_known_cost _ _ _ (gt_zero_truthy _ Hcost)).
      unfold pricedRow, rawPrice. cbn [new_price].
      now destruct (markupType st).
  - intros row Hcost viaMargin viaMarkup. subst viaMargin viaMarkup.
    assert (Ht : Num.truthy (cost_price row) = true) by now rewrite Hcost.
    rewrite !(priceRow_known_cost _ _ _ Ht), Hcost.
    unfold pricedRow.
    cbn [new_price margin_percent extra].
    rewrite !lookup_insert_eq.
    repeat split; vm_compute; reflexivity.
Qed.

Lemma C1_new_price_formula_witness :
  exists row',
    data (calculatePrices
            (sampleState margin (Num.ofZ 40)
               [sampleRow "A-1" (Num.ofZ 90) (Num.ofZ 60)])) !! 0%nat
      = Some row' /\
    new_price row' = Some (Num.ofZ 100).
Proof.
  destruct (proj1 C1_new_price_formula
              (sampleState margin (Num.ofZ 40)
                 [sampleRow "A-1" (Num.ofZ 90) (Num.ofZ 60)])
              0%nat (sampleRow "A-1" (Num.ofZ 90) (Num.ofZ 60))
              eq_refl eq_refl) as (row' & Hl & Hp).
  exists row'. split; [exact Hl|].
  rewrite Hp. vm_compute. reflexivity.
Defined.

(** In [app/page.tsx] a row whose cost is zero leaves the pricing pass
    with [new_price] equal to its [current_price], [margin_percent] 0 and
    [price_change] 0, whatever the target and the method are. *)
Lemma zero_cost_short_circuit
    (st : State) (i : nat) (row : ProductRow) :
  data st !! i = Some row ->
  Num.eq (cost_price row) Num.zero = true ->
  exists row',
    data (calculatePrices st) !! i = Some row' /\
    new_price row' = Some (current_price row) /\
    margin_percent row' = Some Num.zero /\
    price_change row' = Some Num.zero.
Proof.
  intros Hrow Hcost.
  exists (priceRow (markupType st) (marginTarget st) row). split.
  - rewrite calculatePrices_lookup, Hrow. reflexivity.
  - rewrite (priceRow_zero_cost _ _ _ (eq_zero_falsy _ Hcost)). now cbn.
Qed.

Lemma zero_cost_short_circuit_example :
  exists row',
    data (calculatePrices
            (sampleState markup (Num.ofZ 25)
               [sampleRow "B-2" (Num.ofDecimal 1250 (-2)) Num.zero])) !! 0%nat
      = Some row' /\
    new_price row' = Some (Num.ofDecimal 1250 (-2)) /\
    margin_percent row' = Some Num.zero /\
    price_change row' = Some Num.zero.
Proof.
  exact (zero_cost_short_circuit
           (sampleState markup (Num.ofZ 25)
              [sampleRow "B-2" (Num.ofDecimal 1250 (-2)) Num.zero])
           0%nat (sampleRow "B-2" (Num.ofDecimal 1250 (-2)) Num.zero)
           eq_refl eq_refl).
Defined.

(** The pass writes the derived fields and [new_price_shopify] only; a
    second application finds the same cost and current price and writes
    the same values again. *)
Lemma priceRow_idempotent method target row :
  priceRow method target (priceRow method target row) =
  priceRow method target row.
Proof.
  destruct (Num.truthy (cost_price row)) eqn:Ht.
  - rewrite (priceRow_known_cost _ _ row Ht).
    rewrite priceRow_known_cost by exact Ht.
    unfold pricedRow. cbn. now rewrite insert_insert_eq.
  - rewrite (priceRow_zero_cost _ _ row Ht).
    now rewrite priceRow_zero_cost by exact Ht.
Qed.

Lemma priceRow_depends_on_prices method target r1 r2 :
  cost_price r1 = cost_price r2 ->
  current_price r1 = current_price r2 ->
  new_price (priceRow method target r1) = new_price (priceRow method target r2)
  /\ margin_percent (priceRow method target r1)
     = margin_percent (priceRow method target r2)
  /\ price_change (priceRow method target r1)
     = price_change (priceRow method target r2).
Proof.
  intros Hc Hp. unfold priceRow, pricedRow. rewrite Hc, Hp.
  now destruct (Num.eq _ _).
Qed.

(** C8. The pricing pass is idempotent: a second run with the same target
    and method leaves every row, and so its [new_price], [margin_percent]
    and [price_change], as the first run made it; and the three derived
    fields of a row are a function of its [cost_price] and
    [current_price] alone. *)
Theorem C8_pricing_idempotent :
  (forall st : State,
      calculatePrices (calculatePrices st) = calculatePrices st) /\
  (forall (st : State) (i : nat),
      new_price <$> data (calculatePrices (calculatePrices st)) !! i
        = new_price <$> data (calculatePrices st) !! i /\
      margin_percent <$> data (calculatePrices (calculatePrices st)) !! i
        = margin_percent <$> data (calculatePrices st) !! i /\
      price_change <$> data (calculatePrices (calculatePrices st)) !! i
        = price_change <$> data (calculatePrices st) !! i) /\
  (forall method target r1 r2,
      cost_price r1 = cost_price r2 ->
      current_price r1 = current_price r2 ->
      new_price (priceRow method target r1)
        = new_price (priceRow method target r2) /\
      margin_percent (priceRow method target r1)
        = margin_percent (priceRow method target r2) /\
      price_change (priceRow method target r1)
        = price_change (priceRow method target r2)).
Proof.
  assert (Hidem : forall st : State,
             calculatePrices (calculatePrices st) = calculatePrices st).
  { intros st. unfold calculatePrices, setData. cbn. f_equal.
    rewrite <- list_fmap_compose. apply list_fmap_ext.
    intros _ row _. apply priceRow_idempotent. }
  split; [exact Hidem|]. split.
  - intros st i. now rewrite Hidem.
  - apply priceRow_depends_on_prices.
Qed.

Lemma C8_pricing_idempotent_witness :
  new_price
    (priceRow margin (Num.ofZ 40) (sampleRow "A-1" (Num.ofZ 90) (Num.ofZ 60)))
  = new_price
      (priceRow margin (Num.ofZ 40)
         (priceRow margin (Num.ofZ 40)
            (sampleRow "A-1" (Num.ofZ 90) (Num.ofZ 60)))).
Proof.
  exact (proj1 (proj2 (proj2 C8_pricing_idempotent) margin (Num.ofZ 40)
                  (sampleRow "A-1" (Num.ofZ 90) (Num.ofZ 60))
                  (priceRow margin (Num.ofZ 40)
                     (sampleRow "A-1" (Num.ofZ 90) (Num.ofZ 60)))
                  eq_refl eq_refl)).
Defined.

(** C10. On a row whose cost is a number other than zero, the pricing
    pass of [app/page.tsx] and the one of the older [page.tsx] produce
    the same row, hence the same [new_price], [margin_percent] and
    [price_change], for every target and method.  (A cost that is NaN is
    read as 0 by [row.cost_price || 0] and belongs to the zero-cost
    case.) *)
Theorem C10_variants_agree_off_zero_cost
    (method : MarkupType) (target : Num.number) (row : ProductRow) :
  Num.isNaN (cost_price row) = false ->
  Num.eq (cost_price row) Num.zero = false ->
  Legacy.priceRow method target row = priceRow method target row /\
  new_price (Legacy.priceRow method target row)
    = new_price (priceRow method target row) /\
  margin_percent (Legacy.priceRow method target row)
    = margin_percent (priceRow method target row) /\
  price_change (Legacy.priceRow method target row)
    = price_change (priceRow method target row).
Proof.
  intros Hnan Hne.
  assert (Ht : Num.truthy (cost_price row) = true).
  { destruct (cost_price row) as [s|s| |s m e]; now cbn in *. }
  assert (E : Legacy.priceRow method target row = priceRow method target row).
  { rewrite (priceRow_known_cost _ _ _ Ht). unfold Legacy.priceRow.
    now rewrite (or_else_truthy _ _ Ht). }
  now rewrite E.
Qed.

Lemma C10_variants_agree_off_zero_cost_witness :
  Legacy.priceRow markup (Num.ofZ 40)
    (sampleRow "A-1" (Num.ofZ 90) (Num.ofZ 60))
  = priceRow markup (Num.ofZ 40) (sampleRow "A-1" (Num.ofZ 90) (Num.ofZ 60)).
Proof.
  exact (proj1 (C10_variants_agree_off_zero_cost markup (Num.ofZ 40)
                  (sampleRow "A-1" (Num.ofZ 90) (Num.ofZ 60))
                  eq_refl eq_refl)).
Defined.

(** In the zero-cost case the two copies differ: the older one has no
    guard and prices the row from cost 0. *)
Example legacy_prices_zero_cost :
  new_price (Legacy.priceRow margin (Num.ofZ 40)
               (sampleRow "B-2" (Num.ofZ 10) Num.zero)) = Some Num.zero /\
  new_price (priceRow margin (Num.ofZ 40)
               (sampleRow "B-2" (Num.ofZ 10) Num.zero)) = Some (Num.ofZ 10).
Proof. split; vm_compute; reflexivity. Qed.

(** C2, on the code.  The pricing pass of the older [page.tsx] has no
    [cost === 0] guard.  On a row with cost 0 and current price 10 (target
    40, margin method) it prices from cost 0: [new_price] 0,
    [margin_percent] 0 and [price_change] -10, where the pass of
    [app/page.tsx] keeps the price: [new_price] 10 and [price_change]
    0. *)
Theorem C2_older_pass_has_no_guard :
  Num.eq (cost_price (sampleRow "B-2" (Num.ofZ 10) Num.zero)) Num.zero = true /\
  new_price <$> data (Legacy.calculatePrices zeroCostState) !! 0%nat
    = Some (Some Num.zero) /\
  margin_percent <$> data (Legacy.calculatePrices zeroCostState) !! 0%nat
    = Some (Some Num.zero) /\
  price_change <$> data (Legacy.calculatePrices zeroCostState) !! 0%nat
    = Some (Some (Num.ofZ (-10))) /\
  new_price <$> data (calculatePrices zeroCostState) !! 0%nat
    = Some (Some (Num.ofZ 10)) /\
  margin_percent <$> data (calculatePrices zeroCostState) !! 0%nat
    = Some (Some Num.zero) /\
  price_change <$> data (calculatePrices zeroCostState) !! 0%nat
    = Some (Some Num.zero).
Proof. repeat split; vm_compute; reflexivity. Qed.

(** C10 as the specification words it, every row with
    [cost_price !== 0], fails on a row whose cost is NaN: [NaN !== 0]
    holds, [NaN || 0] is 0, so the guard of [app/page.tsx] fires and
    keeps the current price 10, while the older copy prices the row from
    cost 0. *)
Lemma C10_counterexample_nan_cost :
  Num.eq (cost_price (sampleRow "N-1" (Num.ofZ 10) S754_nan)) Num.zero = false /\
  new_price (priceRow margin (Num.ofZ 40)
               (sampleRow "N-1" (Num.ofZ 10) S754_nan)) = Some (Num.ofZ 10) /\
  new_price (Legacy.priceRow margin (Num.ofZ 40)
               (sampleRow "N-1" (Num.ofZ 10) S754_nan)) = Some Num.zero /\
  new_price (Legacy.priceRow margin (Num.ofZ 40)
               (sampleRow "N-1" (Num.ofZ 10) S754_nan))
    <> new_price (priceRow margin (Num.ofZ 40)
                    (sampleRow "N-1" (Num.ofZ 10) S754_nan)).
Proof. repeat split; vm_compute; congruence. Qed.

(** ** The summary *)

Lemma fold_left_margins (d : list ProductRow) (acc : Num.number) :
  fold_left (fun a row => a + orZero (margin_percent row)) d acc =
  fold_left Num.add (map marginOf d) acc.
Proof.
  revert acc. induction d as [|row d IH]; intros acc; [reflexivity|].
  cbn. apply IH.
Qed.

Lemma filter_ext_length {A} (f g : A -> bool) (l : list A) :
  (forall x, f x = g x) ->
  length (List.filter f l) = length (List.filter g l).
Proof.
  intros H. induction l as [|x l IH]; [reflexivity|].
  cbn. rewrite H. destruct (g x); cbn; now rewrite IH.
Qed.

Lemma changeOf_gt row : Num.gt (changeOf row) Num.zero = isIncrease row.
Proof.
  unfold changeOf, isIncrease.
  destruct (price_change row) as [x|]; [|reflexivity].
  number_cases x; reflexivity.
Qed.

Lemma changeOf_lt row : Num.lt (changeOf row) Num.zero = isDecrease row.
Proof.
  unfold changeOf, isDecrease.
  destruct (price_change row) as [x|]; [|reflexivity].
  number_cases x; reflexivity.
Qed.

Lemma marginOf_ordinary (d : list ProductRow) (margins : list Num.number) :
  map margin_percent d = map Some margins ->
  Forall ordinaryMargin margins ->
  map marginOf d = margins.
Proof.
  revert margins. induction d as [|row d IH]; intros margins Hm Hord.
  - destruct margins; [reflexivity|discriminate].
  - destruct margins as [|m margins]; [discriminate|].
    injection Hm as Hrow Hrest. inversion Hord as [|? ? [Hnan Hneg] Hord']; subst.
    cbn [map]. rewrite (IH margins Hrest Hord'). f_equal.
    unfold marginOf. rewrite Hrow. cbn [orZero].
    number_cases m; try reflexivity; try discriminate. now destruct Hneg.
Qed.

(** C9 as the specification words it fails on a margin that is NaN, which
    the pricing pass itself produces: with target 100 under the margin
    method a product that costs 60 gets the price [60 / 0], infinity, and
    the margin [infinity / infinity], NaN.  The mean of the
    [margin_percent] values is then NaN, but the summary reads the margin
    as [row.margin_percent || 0] and shows 0.0. *)
Lemma C9_counterexample_nan_margin :
  map margin_percent
    (data (calculatePrices
             (sampleState margin (Num.ofZ 100)
                [sampleRow "A-1" (Num.ofZ 90) (Num.ofZ 60)])))
    = [Some S754_nan] /\
  arithmeticMean [S754_nan] = S754_nan /\
  Fmt.toFixed 1 (arithmeticMean [S754_nan]) = "NaN" /\
  avgMargin (stats (calculatePrices
                      (sampleState margin (Num.ofZ 100)
                         [sampleRow "A-1" (Num.ofZ 90) (Num.ofZ 60)])))
    = CString "0.0" /\
  avgMargin (stats (calculatePrices
                      (sampleState margin (Num.ofZ 100)
                         [sampleRow "A-1" (Num.ofZ 90) (Num.ofZ 60)])))
    <> CString (Fmt.toFixed 1 (arithmeticMean [S754_nan])).
Proof. repeat split; vm_compute; congruence. Qed.

(** C9, amended.  The summary has [total] equal to the number of rows;
    [avgMargin] equal to the arithmetic mean of the rows' margins, each
    read as [row.margin_percent || 0], printed with one decimal, and 0
    for an empty dataset (a row without a margin, or with a NaN margin,
    counts as 0; where every row has a margin that is a number, the mean
    is over exactly those [margin_percent] values); [priceIncreases] the number of
    rows whose [price_change] is strictly above zero and [priceDecreases]
    the number of those strictly below zero, a row with change zero being
    in neither count.  Margins 10, 20, 30 give [avgMargin] 20.0; price
    changes +5, 0, -3 give one increase and one decrease. *)
Theorem C9_summary :
  (forall st : State,
      total (stats st) = length (data st) /\
      avgMargin (stats st) =
        match data st with
        | [] => CNumber Num.zero
        | _ :: _ =>
            CString (Fmt.toFixed 1 (arithmeticMean (map marginOf (data st))))
        end /\
      priceIncreases (stats st) = length (List.filter isIncrease (data st)) /\
      priceDecreases (stats st) = length (List.filter isDecrease (data st))) /\
  (forall (st : State) (margins : list Num.number),
      map margin_percent (data st) = map Some margins ->
      Forall ordinaryMargin margins ->
      margins <> [] ->
      avgMargin (stats st)
        = CString (Fmt.toFixed 1 (arithmeticMean margins))) /\
  (forall (row : ProductRow) (x : Num.number),
      price_change row = Some x -> Num.eq x Num.zero = true ->
      isIncrease row = false /\ isDecrease row = false) /\
  avgMargin (stats (sampleState margin (Num.ofZ 40)
      [withMargin (Num.ofZ 10); withMargin (Num.ofZ 20);
       withMargin (Num.ofZ 30)])) = CString "20.0" /\
  priceIncreases (stats (sampleState margin (Num.ofZ 40)
      [withChange (Num.ofZ 5); withChange Num.zero;
       withChange (Num.ofZ (-3))])) = 1%nat /\
  priceDecreases (stats (sampleState margin (Num.ofZ 40)
      [withChange (Num.ofZ 5); withChange Num.zero;
       withChange (Num.ofZ (-3))])) = 1%nat.
Proof.
  assert (Hgen : forall st : State,
      total (stats st) = length (data st) /\
      avgMargin (stats st) =
        match data st with
        | [] => CNumber Num.zero
        | _ :: _ =>
            CString (Fmt.toFixed 1 (arithmeticMean (map marginOf (data st))))
        end /\
      priceIncreases (stats st) = length (List.filter isIncrease (data st)) /\
      priceDecreases (stats st) = length (List.filter isDecrease (data st))).
  { intros st. unfold stats.
    cbn [total avgMargin priceIncreases priceDecreases].
    split; [reflexivity|]. split; [|split].
    + destruct (data st) as [|row d] eqn:E; [reflexivity|].
      cbn [length Nat.ltb Nat.leb]. unfold arithmeticMean.
      now rewrite fold_left_margins, length_map.
    + apply filter_ext_length. intros row. apply changeOf_gt.
    + apply filter_ext_length. intros row. apply changeOf_lt. }
  split; [exact Hgen|].
  split; [|split; [|repeat split; vm_compute; reflexivity]].
  - intros st margins Hm Hord Hne.
    destruct (Hgen st) as (_ & Havg & _). rewrite Havg.
    rewrite (marginOf_ordinary _ _ Hm Hord).
    destruct (data st) as [|row d]; [|reflexivity].
    destruct margins; [now destruct Hne|discriminate].
  - intros row x Hpc Hzero. unfold isIncrease, isDecrease. rewrite Hpc.
    number_cases x; now cbn in *.
Qed.

Lemma C9_summary_witness :
  avgMargin (stats (sampleState margin (Num.ofZ 40)
      [withMargin (Num.ofZ 10); withMargin (Num.ofZ 20);
       withMargin (Num.ofZ 30)]))
    = CString (Fmt.toFixed 1
        (arithmeticMean [Num.ofZ 10; Num.ofZ 20; Num.ofZ 30])) /\
  isIncrease (withChange (S754_zero true)) = false /\
  isDecrease (withChange (S754_zero true)) = false.
Proof.
  split.
  - apply (proj1 (proj2 C9_summary)
             (sampleState margin (Num.ofZ 40)
                [withMargin (Num.ofZ 10); withMargin (Num.ofZ 20);
                 withMargin (Num.ofZ 30)])
             [Num.ofZ 10; Num.ofZ 20; Num.ofZ 30]).
    + reflexivity.
    + repeat constructor; vm_compute; discriminate.
    + discriminate.
  - exact (proj1 (proj2 (proj2 C9_summary)) (withChange (S754_zero true))
             (S754_zero true) eq_refl eq_refl).
Defined.

(** ** Ingestion: what [cleanNumber] stores *)

Lemma binary_round_aux_sign s m e l :
  hasSign s (binary_round_aux Num.prec Num.emax s m e l).
Proof.
  unfold binary_round_aux.
  destruct (shr_fexp _ _ m e l) as [mrs' e'].
  destruct (shr_fexp _ _ _ e' loc_Exact) as [mrs'' e''].
  destruct (shr_m mrs''); cbn; trivial.
  destruct (Z.leb _ _); cbn; trivial.
Qed.

Lemma ofZ_sign (z : Z) : (0 <= z)%Z -> hasSign false (Num.ofZ z).
Proof.
  intros Hz. unfold Num.ofZ, binary_normalize.
  destruct z as [|p|p]; [reflexivity| |lia].
  unfold binary_round. destruct (shl_align _ _ _) as [mz ez].
  apply binary_round_aux_sign.
Qed.

Lemma ofQuot_sign (n d : positive) : hasSign false (Num.ofQuot n d).
Proof.
  unfold Num.ofQuot, SFdiv.
  destruct (SFdiv_core_binary _ _ _ _ _ _) as [[mz ez] lz].
  apply (binary_round_aux_sign (xorb false false)).
Qed.

Lemma ofDecimal_sign (n k : Z) : (0 <= n)%Z -> hasSign false (Num.ofDecimal n k).
Proof.
  intros Hn. unfold Num.ofDecimal.
  destruct n as [|p|p]; [reflexivity| |lia].
  destruct (0 <=? k)%Z eqn:Hk.
  - apply ofZ_sign. apply Z.leb_le in Hk.
    pose proof (Z.pow_nonneg 10 k). lia.
  - apply ofQuot_sign.
Qed.

Lemma spanDigits_digits (s : string) : allDigits (fst (Str.spanDigits s)) = true.
Proof.
  induction s as [|c r IH]; [reflexivity|].
  change (Str.spanDigits (String c r)) with
    (if Str.isDigit c
     then let '(d, t) := Str.spanDigits r in (String c d, t)
     else (EmptyString, String c r)).
  destruct (Str.isDigit c) eqn:Hc; [|reflexivity].
  destruct (Str.spanDigits r) as [d t].
  change (allDigits d = true) in IH.
  change (Str.isDigit c && allDigits d = true).
  now rewrite Hc, IH.
Qed.

Lemma allDigits_app (a b : string) :
  allDigits a = true -> allDigits b = true -> allDigits (a ++ b) = true.
Proof.
  intros Ha Hb. induction a as [|c r IH]; [exact Hb|].
  change (Str.isDigit c && allDigits r = true) in Ha.
  change (Str.isDigit c && allDigits (r ++ b) = true).
  apply andb_true_iff in Ha as [Hc Hr].
  now rewrite Hc, IH.
Qed.

Lemma digitsValue_nonneg (s : string) (acc : Z) :
  (0 <= acc)%Z -> allDigits s = true -> (0 <= Str.digitsValue acc s)%Z.
Proof.
  revert acc. induction s as [|c r IH]; intros acc Hacc Hs; [exact Hacc|].
  change (Str.isDigit c && allDigits r = true) in Hs.
  change (0 <= Str.digitsValue (10 * acc + Str.digitValue c) r)%Z.
  apply andb_true_iff in Hs as [Hc Hr].
  apply IH; [|exact Hr].
  unfold Str.isDigit, Str.digitValue in *.
  apply andb_true_iff in Hc as [Hlo _]. apply N.leb_le in Hlo. lia.
Qed.

Lemma parseUnsigned_sign (s : string) (x : Num.number) :
  Str.parseUnsigned s = Some x -> hasSign false x.
Proof.
  unfold Str.parseUnsigned.
  destruct (String.prefix "Infinity" s); [now intros [= <-]|].
  pose proof (spanDigits_digits s) as Hip.
  destruct (Str.spanDigits s) as [ip r1]. cbn in Hip.
  assert (Hfp : forall r, allDigits (fst (Str.spanDigits r)) = true)
    by apply spanDigits_digits.
  assert (Hgo : forall fp r2,
             allDigits fp = true ->
             (if Str.isEmpty ip && Str.isEmpty fp then None
              else Some (Num.ofDecimal (Str.digitsValue 0 (ip ++ fp))
                     (Str.exponentOf r2 - Z.of_nat (String.length fp))))
             = Some x -> hasSign false x).
  { intros fp r2 Hd. destruct (_ && _); [discriminate|].
    intros [= <-]. apply ofDecimal_sign.
    apply digitsValue_nonneg; [lia|]. now apply allDigits_app. }
  destruct r1 as [|c r].
  - apply Hgo. reflexivity.
  - destruct (Ascii.eqb c ".") eqn:Hdot.
    + apply Ascii.eqb_eq in Hdot. subst c.
      specialize (Hfp r). destruct (Str.spanDigits r) as [fp r2].
      apply Hgo. exact Hfp.
    + assert (Hne : c <> "."%char) by (now apply Ascii.eqb_neq).
      intros H. apply (Hgo EmptyString (String c r)); [reflexivity|].
      revert H.
      destruct c as [[] [] [] [] [] [] [] []]; try exact (fun H => H).
      now destruct Hne.
Qed.

(** What [cleanNumber] can return: never NaN; a number that is at least
    zero, or else a number below zero, which takes a minus sign at the
    head of the cleaned text. *)
Lemma cleanNumber_range (cell : option string) :
  Num.isNaN (cleanNumber cell) = false /\
  (Num.ge (cleanNumber cell) Num.zero = true \/
   exists v, cell = Some v /\
     Str.startsWith (Str.removeChars isStripped v) "-" = true /\
     Num.lt (cleanNumber cell) Num.zero = true).
Proof.
  destruct cell as [v|]; [|now split; [|left]].
  unfold cleanNumber. destruct (negb (Str.truthy v)); [now split; [|left]|].
  set (cleaned := Str.removeChars isStripped v).
  unfold Str.parseFloat.
  destruct (Str.signOf (Str.trimStart cleaned)) as [neg u] eqn:Hsign.
  destruct (Str.parseUnsigned u) as [x|] eqn:Hu; [|now split; [|left]].
  apply parseUnsigned_sign in Hu.
  destruct neg.
  - assert (Hminus : Str.startsWith cleaned "-" = true).
    { assert (Ht : Str.trimStart cleaned = cleaned).
      { subst cleaned. clear. induction v as [|c r IH]; [reflexivity|].
        cbn. destruct (isStripped c) eqn:Hc; [exact IH|].
        cbn. unfold isStripped in Hc. apply orb_false_iff in Hc as [_ Hw].
        now rewrite Hw. }
      rewrite Ht in Hsign. unfold Str.signOf in Hsign.
      destruct cleaned as [|c r]; [discriminate|].
      destruct c as [[] [] [] [] [] [] [] []]; try discriminate.
      destruct r; reflexivity. }
    destruct x as [s|s| |s m e]; cbn in Hu; subst; cbn;
      (split; [reflexivity|]); try (now left);
      right; exists v; now repeat split.
  - destruct x as [s|s| |s m e]; cbn in Hu; subst; cbn;
      (split; [reflexivity|]); now left.
Qed.

Lemma processedOf_In (parsed : list RawRow) (r : ProductRow) :
  In r (processedOf parsed) <->
  exists i raw,
    parsed !! i = Some raw /\ r = processRow i raw /\ keepRow r = true.
Proof.
  unfold processedOf. rewrite filter_In, <- list_elem_of_In, list_elem_of_lookup.
  split.
  - intros [[i Hi] Hk]. apply list_lookup_imap_Some in Hi as (raw & Hraw & ->).
    now exists i, raw.
  - intros (i & raw & Hraw & -> & Hk). split; [|exact Hk].
    exists i. apply list_lookup_imap_Some. now exists raw.
Qed.

(** C3 as the specification words it fails: a cell holding -5 is stored as the number -5,
    which is not at least zero; nothing in [cleanNumber] turns a negative
    number into 0. *)
Lemma C3_counterexample_negative_cell :
  cleanNumber (Some "-5") = Num.ofZ (-5) /\
  Num.ge (Num.ofZ (-5)) Num.zero = false /\
  error (handleFileUpload (Some negativeFile) initialState) = "" /\
  current_price <$> data (handleFileUpload (Some negativeFile) initialState)
    !! 0%nat = Some (Num.ofZ (-5)) /\
  cost_price <$> data (handleFileUpload (Some negativeFile) initialState)
    !! 0%nat = Some (Num.ofDecimal (-250) (-2)).
Proof. repeat split; vm_compute; reflexivity. Qed.

(** C3, amended.  The value ingestion stores in [current_price] and in
    [cost_price] is [cleanNumber] of the row's price and cost cell.  It is
    never NaN: a missing, empty or unparsable cell gives 0.  It is at
    least zero unless the cell's text, once the stripped characters are
    removed, starts with a minus sign; a negative number is stored as it
    is. *)
Theorem C3_stored_prices :
  (forall (parsed : list RawRow) (r : ProductRow),
      In r (processedOf parsed) ->
      exists i raw,
        parsed !! i = Some raw /\
        current_price r = cleanNumber (getField raw priceField) /\
        cost_price r = cleanNumber (getField raw costField)) /\
  (forall cell : option string,
      Num.isNaN (cleanNumber cell) = false /\
      (Num.ge (cleanNumber cell) Num.zero = true \/
       exists v, cell = Some v /\
         Str.startsWith (Str.removeChars isStripped v) "-" = true /\
         Num.lt (cleanNumber cell) Num.zero = true)) /\
  (forall v : string,
      Num.isNaN (Str.parseFloat (Str.removeChars isStripped v)) = true ->
      cleanNumber (Some v) = Num.zero) /\
  cleanNumber None = Num.zero /\
  cleanNumber (Some "") = Num.zero.
Proof.
  split; [|split; [|split; [|split; reflexivity]]].
  - intros parsed r Hr. apply processedOf_In in Hr as (i & raw & Hraw & -> & _).
    now exists i, raw.
  - apply cleanNumber_range.
  - intros v Hnan. unfold cleanNumber. rewrite Hnan.
    now destruct (negb (Str.truthy v)).
Qed.

Lemma C3_stored_prices_witness :
  cleanNumber (Some "abc") = Num.zero /\
  exists i raw,
    rows negativeFile !! i = Some raw /\
    current_price (processRow 0 [("Variant SKU", "A-1"); ("Variant Price", "-5");
                                 ("Cost per item", "-2.50")])
      = cleanNumber (getField raw priceField) /\
    cost_price (processRow 0 [("Variant SKU", "A-1"); ("Variant Price", "-5");
                              ("Cost per item", "-2.50")])
      = cleanNumber (getField raw costField).
Proof.
  split.
  - exact (proj1 (proj2 (proj2 C3_stored_prices)) "abc" eq_refl).
  - apply (proj1 C3_stored_prices (rows negativeFile)).
    vm_compute. left. reflexivity.
Defined.

(** ** Ingestion: which rows are kept *)

Lemma startsWith_placeholder (s : string) :
  Str.startsWith ("ROW-" ++ s) "ROW-" = true.
Proof. destruct s; reflexivity. Qed.

(** A parsed row is kept exactly when its identifier cell is there and
    its trimmed text is neither empty nor begins with [ROW-]. *)
Lemma keepRow_processRow (i : nat) (raw : RawRow) :
  keepRow (processRow i raw) = true <->
  exists v, getField raw skuField = Some v /\
    Str.trim v <> "" /\ Str.startsWith (Str.trim v) "ROW-" = false.
Proof.
  unfold keepRow, processRow. cbn [sku]. unfold trimmedOr.
  destruct (getField raw skuField) as [v|].
  - destruct (Str.truthy v) eqn:Hv.
    + split.
      * intros H. apply andb_true_iff in H as [Hne Hp]. exists v.
        split; [reflexivity|]. split.
        -- intros E. rewrite E in Hne. discriminate.
        -- now apply negb_true_iff.
      * intros (v' & [= <-] & Hne & Hp). rewrite Hp.
        destruct (Str.trim v); [now destruct Hne|reflexivity].
    + destruct v; [|discriminate]. rewrite startsWith_placeholder.
      rewrite andb_false_r. split; [discriminate|].
      now intros (v' & [= <-] & Hne & _).
  - rewrite startsWith_placeholder, andb_false_r.
    split; [discriminate|]. now intros (v' & [=] & _).
Qed.

(** C4, on the code.  The product with identifier [ROW-7A] has a
    non-blank trimmed identifier, yet the filter
    [!row.sku.startsWith('ROW-')] drops it with the placeholder rows: of
    the two products only [A-1] is loaded. *)
Theorem C4_real_identifier_dropped :
  Str.trim "ROW-7A" = "ROW-7A" /\
  keepRow (processRow 0 [("Variant SKU", "ROW-7A"); ("Variant Price", "10")])
    = false /\
  error (handleFileUpload (Some rowPrefixFile) initialState) = "" /\
  map sku (data (handleFileUpload (Some rowPrefixFile) initialState)) = ["A-1"].
Proof. repeat split; vm_compute; reflexivity. Qed.

(** ** Ingestion: the three failures *)

Lemma startsWith_app (p s : string) : Str.startsWith (p ++ s) p = true.
Proof.
  unfold Str.startsWith. induction p as [|a p IH]; [now destruct s|].
  change (match ascii_dec a a with
          | left _ => String.prefix p (p ++ s)
          | right _ => false
          end = true).
  destruct (ascii_dec a a) as [_|Hne]; [exact IH|now destruct Hne].
Qed.


Lemma msgMissing_head (missing columns : list string) :
  exists rest, msgMissing missing columns = String "M" rest.
Proof. unfold msgMissing. cbn. eauto. Qed.

Lemma missingColumnsOf_nil (columns : list string) :
  missingColumnsOf columns = [] <->
  includes columns skuField = true /\ includes columns priceField = true.
Proof.
  unfold missingColumnsOf.
  destruct (includes columns skuField), (includes columns priceField);
    cbn; split; try discriminate; try tauto; now intros [? ?].
Qed.

Lemma missingColumnsOf_In (columns : list string) (c : string) :
  In c (missingColumnsOf columns) <->
  (c = skuField \/ c = priceField) /\ includes columns c = false.
Proof.
  unfold missingColumnsOf. rewrite in_app_iff. split.
  - intros [H|H].
    + destruct (includes columns skuField) eqn:Hs; cbn in H; [destruct H|].
      destruct H as [<-|[]]. auto.
    + destruct (includes columns priceField) eqn:Hp; cbn in H; [destruct H|].
      destruct H as [<-|[]]. auto.
  - intros [[-> | ->] H]; rewrite H; cbn; auto.
Qed.

(** The state after an upload, case by case. *)
Lemma handleFileUpload_cases (f : File) (st : State) :
  let st0 := setOriginalFileName (Str.removeFirst ".csv" (name f))
               (setError "" st) in
  match rows f with
  | [] => handleFileUpload (Some f) st = setError msgEmpty st0
  | first :: _ =>
      let columns := keys first in
      match missingColumnsOf columns with
      | _ :: _ =>
          handleFileUpload (Some f) st
          = setError (msgMissing (missingColumnsOf columns) columns) st0
      | [] =>
          match processedOf (rows f) with
          | [] =>
              handleFileUpload (Some f) st
              = setError msgNoValid (setHeaders columns st0)
          | _ :: _ =>
              handleFileUpload (Some f) st
              = setData (processedOf (rows f)) (setHeaders columns st0)
          end
      end
  end.
Proof.
  unfold handleFileUpload, complete.
  destruct (rows f) as [|first rest]; [reflexivity|].
  cbn zeta.
  destruct (missingColumnsOf (keys first)) as [|c cs]; [|reflexivity].
  cbn [length Nat.ltb Nat.leb].
  destruct (processedOf (first :: rest)); reflexivity.
Qed.





(** ** Ingestion: what a failed upload leaves behind *)

(** C7 as the specification words it fails for the no-valid-products
    failure:
    [setHeaders(columns)] runs before the rows are filtered, so the
    recorded header set is already the new file's when the upload is
    rejected.  The row set is the old one. *)
Lemma C7_counterexample_headers_replaced :
  headers (handleFileUpload (Some goodFile) initialState)
    = ["Variant SKU"; "Variant Price"] /\
  error (handleFileUpload (Some blankIdFile)
           (handleFileUpload (Some goodFile) initialState)) = msgNoValid /\
  headers (handleFileUpload (Some blankIdFile)
             (handleFileUpload (Some goodFile) initialState))
    = ["Title"; "Variant SKU"; "Variant Price"] /\
  headers (handleFileUpload (Some blankIdFile)
             (handleFileUpload (Some goodFile) initialState))
    <> headers (handleFileUpload (Some goodFile) initialState).
Proof. repeat split; vm_compute; congruence. Qed.

(** C7, amended.  A failed upload leaves the row set (and the target and
    the method) as they were.  The recorded header set is left as it was
    by the empty-file and the missing-columns failures; the
    no-valid-products failure has already replaced it by the columns of
    the rejected file. *)
Theorem C7_failed_upload_state (f : File) (st : State) :
  error (handleFileUpload (Some f) st) <> "" ->
  data (handleFileUpload (Some f) st) = data st /\
  marginTarget (handleFileUpload (Some f) st) = marginTarget st /\
  markupType (handleFileUpload (Some f) st) = markupType st /\
  (error (handleFileUpload (Some f) st) <> msgNoValid ->
   headers (handleFileUpload (Some f) st) = headers st) /\
  (error (handleFileUpload (Some f) st) = msgNoValid ->
   exists first rest,
     rows f = first :: rest /\
     headers (handleFileUpload (Some f) st) = keys first).
Proof.
  pose proof (handleFileUpload_cases f st) as H. cbn zeta in H.
  destruct (rows f) as [|first rest] eqn:Hrows.
  { rewrite H. cbn. intros _. repeat split; try reflexivity. discriminate. }
  destruct (missingColumnsOf (keys first)) as [|c cs] eqn:Hmiss.
  - destruct (processedOf (first :: rest)) as [|r rs] eqn:Hproc;
      rewrite H; cbn [error data headers marginTarget markupType
                      setError setData setHeaders setOriginalFileName].
    + intros _. repeat split; try reflexivity.
      * intros Hne. now destruct Hne.
      * intros _. now exists first, rest.
    + intros Hne. now destruct Hne.
  - rewrite H. cbn [error data headers marginTarget markupType
                    setError setData setHeaders setOriginalFileName].
    intros _. repeat split; try reflexivity.
    destruct (msgMissing_head (c :: cs) (keys first)) as [tl ->].
    discriminate.
Qed.

Lemma C7_failed_upload_state_witness :
  data (handleFileUpload (Some blankIdFile)
          (handleFileUpload (Some goodFile) initialState))
  = data (handleFileUpload (Some goodFile) initialState).
Proof.
  apply (C7_failed_upload_state blankIdFile
           (handleFileUpload (Some goodFile) initialState)).
  vm_compute. discriminate.
Defined.

(** ** The import export *)

Lemma lookup_list_to_map_getField (raw : RawRow) (k : string) :
  (list_to_map raw : gmap string string) !! k = getField raw k.
Proof.
  induction raw as [|[k' v] raw IH]; [reflexivity|].
  cbn [list_to_map foldr getField uncurry fst snd].
  change (<[k':=v]> (list_to_map raw : gmap string string) !! k
          = (if String.eqb k' k then Some v else getField raw k)).
  destruct (String.eqb_spec k' k) as [->|Hne].
  - apply lookup_insert_eq.
  - rewrite lookup_insert_ne by exact Hne. exact IH.
Qed.

Lemma isEmpty_app (a b : string) :
  Str.isEmpty (a ++ b) = Str.isEmpty a && Str.isEmpty b.
Proof. destruct a; reflexivity. Qed.

(** [toFixed] with at least one decimal never gives the empty string, so
    its result is truthy. *)
Lemma toFixed_truthy (f : nat) (x : Num.number) :
  Str.truthy (Fmt.toFixed (S f) x) = true.
Proof.
  assert (Hfd : forall n, Str.isEmpty (Fmt.fixedDigits (S f) n) = false).
  { intros n. unfold Fmt.fixedDigits.
    rewrite !isEmpty_app. cbn [Str.isEmpty]. now rewrite andb_false_r. }
  unfold Str.truthy. apply negb_true_iff.
  destruct x as [s|s| |s m e]; cbn [Fmt.toFixed].
  - apply Hfd.
  - now destruct s.
  - reflexivity.
  - rewrite isEmpty_app.
    destruct ((0 <=? e)%Z && (10 ^ 21 <=? Z.pos m * 2 ^ e)%Z).
    + unfold Fmt.toStringLarge.
      destruct (Fmt.shortest _ _ _ _ _) as [sv k].
      destruct (if (sv =? 10 ^ k)%Z then _ else _) as [d ex].
      rewrite !isEmpty_app. cbn [Str.isEmpty].
      now rewrite !andb_false_r.
    + rewrite Hfd. apply andb_false_r.
Qed.

Lemma exportPrice_pricedRow method target cost row :
  exportPrice (pricedRow method target cost row) =
  CString (Fmt.toFixed 2 (round2 (rawPrice method target cost))).
Proof.
  unfold exportPrice, pricedRow. cbn [extra new_price].
  rewrite lookup_insert_eq. now rewrite toFixed_truthy.
Qed.

Lemma length_append (a b : string) :
  String.length (a ++ b) = (String.length a + String.length b)%nat.
Proof.
  induction a as [|c a IH]; [reflexivity|].
  change (S (String.length (a ++ b))
          = S (String.length a + String.length b)).
  now rewrite IH.
Qed.

Lemma length_zeros (n : nat) : String.length (Fmt.zeros n) = n.
Proof. induction n as [|n IH]; [reflexivity|]. cbn. now rewrite IH. Qed.

Lemma length_substring (s : string) (n m : nat) :
  (n + m <= String.length s)%nat -> String.length (String.substring n m s) = m.
Proof.
  revert n m. induction s as [|c s IH]; intros n m H.
  - cbn in H. assert (n = 0%nat) by lia. assert (m = 0%nat) by lia.
    subst. reflexivity.
  - destruct n as [|n].
    + destruct m as [|m]; [reflexivity|].
      cbn. f_equal. apply (IH 0%nat). cbn in H. lia.
    + cbn. apply IH. cbn in H. lia.
Qed.

Lemma fixedDigits_twoDecimals (n : Z) : twoDecimals (Fmt.fixedDigits 2 n).
Proof.
  unfold Fmt.fixedDigits.
  set (m := Fmt.digitsOf n).
  set (m' := Fmt.zeros (3 - String.length m) ++ m).
  assert (Hlen : (3 <= String.length m')%nat).
  { subst m'. rewrite length_append, length_zeros. lia. }
  exists (String.substring 0 (String.length m' - 2) m'),
         (String.substring (String.length m' - 2) 2 m').
  split; [reflexivity|]. apply length_substring. lia.
Qed.

Lemma toFixed_twoDecimals (x : Num.number) :
  fixedRange x = true -> twoDecimals (Fmt.toFixed 2 x).
Proof.
  destruct x as [s|s| |s m e]; cbn [fixedRange Fmt.toFixed]; try discriminate.
  - intros _. apply fixedDigits_twoDecimals.
  - intros H. apply negb_true_iff in H. rewrite H.
    destruct (fixedDigits_twoDecimals
                (Num.scaled_half_up (Z.of_nat 2) (Z.pos m) e)) as (a & b & E & L).
    exists ((if s then "-" else "") ++ a), b. split; [|exact L].
    rewrite E. now destruct s.
Qed.

Lemma exportPrice_noExportText row :
  noExportText row -> exportPrice row = priceOrNothing (new_price row).
Proof.
  unfold noExportText, exportPrice, priceOrNothing. intros H.
  destruct (extra row !! "new_price_shopify") as [s|]; [|reflexivity].
  now rewrite (H s eq_refl).
Qed.

(** The price cell after the pricing pass, by branch: the new price
    formatted by [toFixed(2)], which for a finite price below 10^21 ends
    in a point and exactly two decimals, for a row priced from a non-zero
    cost; the new price as a number, which is the current price, for a
    row with cost zero that brings no [new_price_shopify] text of its
    own. *)
Lemma exportPrice_by_branch :
  (forall method target row,
      Num.truthy (cost_price row) = true ->
      exists p,
        new_price (priceRow method target row) = Some p /\
        Variant_Price (shopifyRow (priceRow method target row))
          = CString (Fmt.toFixed 2 p) /\
        (fixedRange p = true -> twoDecimals (Fmt.toFixed 2 p))) /\
  (forall method target row,
      Num.truthy (cost_price row) = false ->
      noExportText row ->
      new_price (priceRow method target row) = Some (current_price row) /\
      Variant_Price (shopifyRow (priceRow method target row))
        = CNumber (current_price row)).
Proof.
  split.
  - intros method target row Ht.
    rewrite (priceRow_known_cost _ _ _ Ht).
    exists (round2 (rawPrice method target (cost_price row))).
    split; [reflexivity|]. split.
    + apply exportPrice_pricedRow.
    + apply toFixed_twoDecimals.
  - intros method target row Ht Hno.
    rewrite (priceRow_zero_cost _ _ _ Ht). split; [reflexivity|].
    cbn [shopifyRow Variant_Price].
    now rewrite exportPrice_noExportText.
Qed.

(** C5, on the code.  Two products are uploaded, one that costs 60 and
    one without cost priced 12.50, and Calculate is pressed with the
    initial target 40 and the margin method; the page then offers the
    downloads.  The product without cost has the calculated price 12.5,
    but its price cell in the import export is the number 12.5, not the
    text 12.50: the zero-cost branch of [calculatePrices] sets no
    [new_price_shopify], which the other branch sets for the first
    product (price cell 100.00). *)
Theorem C5_zero_cost_price_unformatted :
  showResults (handle Calculate (handle (Upload (Some mixedFile)) initialState))
    = true /\
  new_price <$>
    data (handle Calculate (handle (Upload (Some mixedFile)) initialState))
      !! 1%nat
    = Some (Some (Num.ofDecimal 125 (-1))) /\
  Variant_Price <$>
    downloadShopifyFormat
      (handle Calculate (handle (Upload (Some mixedFile)) initialState))
      !! 1%nat
    = Some (CNumber (Num.ofDecimal 125 (-1))) /\
  Fmt.toFixed 2 (Num.ofDecimal 125 (-1)) = "12.50" /\
  Variant_Price <$>
    downloadShopifyFormat
      (handle Calculate (handle (Upload (Some mixedFile)) initialState))
      !! 0%nat
    = Some (CString "100.00").
Proof. repeat split; vm_compute; reflexivity. Qed.

(** * Further properties of the component *)

(** ** Rounding never produces NaN *)

Lemma shr_1_nonneg (mrs : shr_record) :
  (0 <= shr_m mrs)%Z -> (0 <= shr_m (shr_1 mrs))%Z.
Proof.
  destruct mrs as [m r s]. destruct m as [|p|p]; cbn; try lia.
  destruct p; cbn; lia.
Qed.

Lemma iter_pos_shr_1_nonneg (p : positive) (mrs : shr_record) :
  (0 <= shr_m mrs)%Z -> (0 <= shr_m (SpecFloat.iter_pos shr_1 p mrs))%Z.
Proof.
  revert mrs. induction p as [p IH|p IH|]; intros mrs H; cbn.
  - apply IH, IH, shr_1_nonneg, H.
  - apply IH, IH, H.
  - apply shr_1_nonneg, H.
Qed.

Lemma shr_fexp_nonneg (m e : Z) (l : location) :
  (0 <= m)%Z -> (0 <= shr_m (fst (shr_fexp Num.prec Num.emax m e l)))%Z.
Proof.
  intros Hm. unfold shr_fexp, shr.
  assert (H0 : (0 <= shr_m (shr_record_of_loc m l))%Z).
  { destruct l as [|[]]; exact Hm. }
  destruct (_ - e)%Z; cbn [fst]; trivial.
  now apply iter_pos_shr_1_nonneg.
Qed.

Lemma binary_round_aux_not_nan s m e l :
  (0 <= m)%Z ->
  Num.isNaN (binary_round_aux Num.prec Num.emax s m e l) = false.
Proof.
  intros Hm. unfold binary_round_aux.
  pose proof (shr_fexp_nonneg m e l Hm) as H1.
  destruct (shr_fexp _ _ m e l) as [mrs' e']. cbn [fst] in H1.
  assert (H2 : (0 <= round_nearest_even (shr_m mrs')
                       (loc_of_shr_record mrs'))%Z).
  { unfold round_nearest_even.
    destruct (loc_of_shr_record mrs') as [|[]]; try lia.
    destruct (Z.even _); lia. }
  pose proof (shr_fexp_nonneg _ e' loc_Exact H2) as H3.
  destruct (shr_fexp _ _ _ e' loc_Exact) as [mrs'' e'']. cbn [fst] in H3.
  destruct (shr_m mrs''); [reflexivity| |lia].
  now destruct (Z.leb _ _).
Qed.

Lemma ofZ_not_nan (z : Z) : Num.isNaN (Num.ofZ z) = false.
Proof.
  unfold Num.ofZ, binary_normalize. destruct z as [|p|p]; [reflexivity| |];
    unfold binary_round; destruct (shl_align _ _ _) as [mz ez];
    now apply binary_round_aux_not_nan.
Qed.

Lemma ofQuot_not_nan (n d : positive) : Num.isNaN (Num.ofQuot n d) = false.
Proof.
  unfold Num.ofQuot, SFdiv.
  destruct (SFdiv_core_binary _ _ _ _ _ _) as [[mz ez] lz] eqn:E.
  apply binary_round_aux_not_nan.
  unfold SFdiv_core_binary in E.
  destruct (Z.div_eucl _ _) as [q r] eqn:Hq. injection E as <- _ _.
  match type of Hq with Z.div_eucl ?a ?b = _ =>
    assert (Ha : (0 <= a)%Z);
    [|pose proof (Z.div_eucl_eq a b); pose proof (Z.mod_pos_bound a b);
      pose proof (Z.div_pos a b);
      unfold Z.div, Z.modulo in *; rewrite Hq in *; lia]
  end.
  destruct (_ - _ - _)%Z; try lia.
  apply Z.shiftl_nonneg. lia.
Qed.

Lemma ofDecimal_not_nan (n k : Z) : Num.isNaN (Num.ofDecimal n k) = false.
Proof.
  unfold Num.ofDecimal. destruct n as [|p|p]; [reflexivity| |].
  - destruct (0 <=? k)%Z; [apply ofZ_not_nan|apply ofQuot_not_nan].
  - assert (H : forall x, Num.isNaN x = false -> Num.isNaN (SFopp x) = false)
      by (intros x; now destruct x).
    apply H. destruct (0 <=? k)%Z; [apply ofZ_not_nan|apply ofQuot_not_nan].
Qed.

(** ** [cleanNumber]: separators, and plain integers *)

Lemma cleanNumber_cleaned (v : string) :
  cleanNumber (Some v) =
  (let num := Str.parseFloat (Str.removeChars isStripped v) in
   if Num.isNaN num then Num.zero else num).
Proof. destruct v; reflexivity. Qed.

Lemma removeChars_app (p : ascii -> bool) (a b : string) :
  Str.removeChars p (a ++ b) = Str.removeChars p a ++ Str.removeChars p b.
Proof.
  induction a as [|c a IH]; [reflexivity|].
  change (Str.removeChars p (String c (a ++ b))
          = Str.removeChars p (String c a) ++ Str.removeChars p b).
  cbn [Str.removeChars]. rewrite IH. now destruct (p c).
Qed.

(** X1. A dollar sign, comma, quote or white-space character is ignored
    by [cleanNumber] wherever it stands in the cell, also between two
    digits. *)
Theorem X1_cleanNumber_ignores_separators (a b : string) (c : ascii) :
  isStripped c = true ->
  cleanNumber (Some (a ++ String c b)) = cleanNumber (Some (a ++ b)).
Proof.
  intros Hc. rewrite !cleanNumber_cleaned, !removeChars_app.
  cbn [Str.removeChars]. now rewrite Hc.
Qed.

Lemma X1_cleanNumber_ignores_separators_witness :
  cleanNumber (Some ("$1" ++ String "," "234.50"))
  = cleanNumber (Some ("$1" ++ "234.50")).
Proof.
  exact (X1_cleanNumber_ignores_separators "$1" "234.50" "," eq_refl).
Defined.

Lemma digit_not_stripped (c : ascii) :
  Str.isDigit c = true -> isStripped c = false.
Proof. destruct c as [[] [] [] [] [] [] [] []]; now cbn. Qed.

Lemma digit_not_space_or_sign (c : ascii) (r : string) :
  Str.isDigit c = true ->
  Str.trimStart (String c r) = String c r /\
  Str.signOf (String c r) = (false, String c r) /\
  String.prefix "Infinity" (String c r) = false.
Proof. destruct c as [[] [] [] [] [] [] [] []]; now cbn. Qed.

Lemma removeChars_digits (s : string) :
  allDigits s = true -> Str.removeChars isStripped s = s.
Proof.
  induction s as [|c r IH]; [reflexivity|].
  change (allDigits (String c r)) with (Str.isDigit c && allDigits r).
  intros H. apply andb_true_iff in H as [Hc Hr].
  cbn [Str.removeChars]. now rewrite (digit_not_stripped c Hc), IH.
Qed.

Lemma spanDigits_all (s : string) :
  allDigits s = true -> Str.spanDigits s = (s, EmptyString).
Proof.
  induction s as [|c r IH]; [reflexivity|].
  change (allDigits (String c r)) with (Str.isDigit c && allDigits r).
  intros H. apply andb_true_iff in H as [Hc Hr].
  change (Str.spanDigits (String c r)) with
    (if Str.isDigit c
     then let '(d, t) := Str.spanDigits r in (String c d, t)
     else (EmptyString, String c r)).
  now rewrite Hc, (IH Hr).
Qed.

Lemma append_empty (s : string) : s ++ "" = s.
Proof.
  induction s as [|c r IH]; [reflexivity|].
  change (String c (r ++ "") = String c r). now rewrite IH.
Qed.

Lemma ofDecimal_integer (n : Z) : (0 <= n)%Z -> Num.ofDecimal n 0 = Num.ofZ n.
Proof.
  intros Hn. unfold Num.ofDecimal. destruct n as [|p|p]; [reflexivity| |lia].
  cbn [Z.leb Z.compare]. f_equal. lia.
Qed.

(** X2. A cell that holds nothing but decimal digits is stored as the
    number that integer denotes (the nearest double). *)
Theorem X2_cleanNumber_integer (s : string) :
  allDigits s = true -> s <> "" ->
  cleanNumber (Some s) = Num.ofZ (Str.digitsValue 0 s).
Proof.
  intros Hd Hne. rewrite cleanNumber_cleaned, (removeChars_digits s Hd).
  destruct s as [|c r]; [now destruct Hne|].
  assert (Hc : Str.isDigit c = true).
  { change (allDigits (String c r)) with (Str.isDigit c && allDigits r) in Hd.
    now apply andb_true_iff in Hd as [Hc _]. }
  destruct (digit_not_space_or_sign c r Hc) as (Ht & Hs & Hi).
  cbn zeta. unfold Str.parseFloat. rewrite Ht, Hs.
  unfold Str.parseUnsigned. rewrite Hi, (spanDigits_all _ Hd).
  cbn [Str.isEmpty andb String.length Str.exponentOf Z.of_nat].
  rewrite append_empty, Z.sub_0_r.
  rewrite ofDecimal_integer by (apply digitsValue_nonneg; [lia|exact Hd]).
  now rewrite ofZ_not_nan.
Qed.

Lemma X2_cleanNumber_integer_witness :
  cleanNumber (Some "1299") = Num.ofZ 1299.
Proof. exact (X2_cleanNumber_integer "1299" eq_refl ltac:(discriminate)). Defined.

(** ** Uploads *)

Lemma upload_keeps_parameters (file : option File) (st : State) :
  marginTarget (handleFileUpload file st) = marginTarget st /\
  markupType (handleFileUpload file st) = markupType st.
Proof.
  destruct file as [f|]; [|now split].
  pose proof (handleFileUpload_cases f st) as H. cbn zeta in H.
  destruct (rows f) as [|first rest]; [now rewrite H|].
  destruct (missingColumnsOf (keys first)); [|now rewrite H].
  destruct (processedOf (first :: rest)); now rewrite H.
Qed.

Lemma upload_file_name (f : File) (st : State) :
  originalFileName (handleFileUpload (Some f) st)
  = Str.removeFirst ".csv" (name f).
Proof.
  pose proof (handleFileUpload_cases f st) as H. cbn zeta in H.
  destruct (rows f) as [|first rest]; [now rewrite H|].
  destruct (missingColumnsOf (keys first)); [|now rewrite H].
  destruct (processedOf (first :: rest)); now rewrite H.
Qed.

(** The state a successful upload leaves. *)
Lemma upload_success (f : File) (st : State) :
  error (handleFileUpload (Some f) st) = "" ->
  handleFileUpload (Some f) st =
  {| data := processedOf (rows f);
     headers := match rows f with first :: _ => keys first | [] => [] end;
     marginTarget := marginTarget st;
     markupType := markupType st;
     originalFileName := Str.removeFirst ".csv" (name f);
     error := "" |}.
Proof.
  pose proof (handleFileUpload_cases f st) as H. cbn zeta in H.
  destruct (rows f) as [|first rest]; [rewrite H; discriminate|].
  destruct (missingColumnsOf (keys first)) as [|c cs] eqn:Hm.
  - destruct (processedOf (first :: rest)) eqn:Hp; rewrite H;
      [discriminate|reflexivity].
  - rewrite H. cbn [error setError].
    destruct (msgMissing_head (c :: cs) (keys first)) as [tl ->]. discriminate.
Qed.

(** X3. An upload that succeeds replaces the row set, the header set, the
    file label and the error wholesale: what it leaves does not depend on
    what an earlier upload (successful or not) had left.  No upload
    changes the target or the method. *)
Theorem X3_upload_replaces_wholesale :
  (forall (f : File) (earlier : option File) (st : State),
      error (handleFileUpload (Some f) st) = "" ->
      handleFileUpload (Some f) (handleFileUpload earlier st)
      = handleFileUpload (Some f) st) /\
  (forall (file : option File) (st : State),
      marginTarget (handleFileUpload file st) = marginTarget st /\
      markupType (handleFileUpload file st) = markupType st).
Proof.
  split; [|apply upload_keeps_parameters].
  intros f earlier st Hok.
  assert (Hok' : error (handleFileUpload (Some f)
                          (handleFileUpload earlier st)) = "").
  { pose proof (handleFileUpload_cases f st) as H1.
    pose proof (handleFileUpload_cases f (handleFileUpload earlier st)) as H2.
    cbn zeta in H1, H2.
    destruct (rows f) as [|first rest]; [now rewrite H1 in Hok|].
    destruct (missingColumnsOf (keys first)) as [|c cs].
    - destruct (processedOf (first :: rest)); [now rewrite H1 in Hok|].
      now rewrite H2.
    - rewrite H1 in Hok. cbn [error setError] in Hok.
      destruct (msgMissing_head (c :: cs) (keys first)) as [tl E].
      rewrite E in Hok. discriminate. }
  rewrite (upload_success _ _ Hok), (upload_success _ _ Hok').
  now destruct (upload_keeps_parameters earlier st) as [-> ->].
Qed.

Lemma X3_upload_replaces_wholesale_witness :
  handleFileUpload (Some goodFile)
    (handleFileUpload (Some negativeFile) initialState)
  = handleFileUpload (Some goodFile) initialState.
Proof.
  exact (proj1 X3_upload_replaces_wholesale goodFile (Some negativeFile)
           initialState eq_refl).
Defined.

Lemma substring_all (s : string) : String.substring 0 (String.length s) s = s.
Proof.
  induction s as [|c r IH]; [reflexivity|]. cbn. now rewrite IH.
Qed.

Lemma removeFirst_extension (base rest : string) :
  noChar "." base = true ->
  Str.removeFirst ".csv" (base ++ ".csv" ++ rest) = base ++ rest.
Proof.
  induction base as [|c base IH]; intros Hdot.
  - change (Str.removeFirst ".csv" (".csv" ++ rest) = rest).
    destruct rest as [|c r].
    + reflexivity.
    + pose proof (startsWith_app ".csv" (String c r)) as Hp.
      unfold Str.startsWith in Hp.
      change (".csv" ++ String c r)
        with (String "." (String "c" (String "s" (String "v" (String c r)))))
        in *.
      cbn [Str.removeFirst]. rewrite Hp.
      cbn [String.length Nat.sub String.substring].
      now rewrite substring_all.
  - change (noChar "." (String c base))
      with (negb (Ascii.eqb c ".") && noChar "." base) in Hdot.
    apply andb_true_iff in Hdot as [Hc Hb].
    apply negb_true_iff, Ascii.eqb_neq in Hc.
    change (Str.removeFirst ".csv" (String c (base ++ ".csv" ++ rest))
            = String c (base ++ rest)).
    cbn [Str.removeFirst].
    assert (Hp : String.prefix ".csv" (String c (base ++ ".csv" ++ rest))
                 = false).
    { cbn [String.prefix].
      destruct (ascii_dec "." c) as [E|_]; [now destruct Hc|reflexivity]. }
    rewrite Hp. now rewrite (IH Hb).
Qed.

(** X5. The file label is the file's name without its first [.csv], and
    it is set before the file is read, so also when the upload then
    fails.  For a name [base.csv] whose base has no dot the label is the
    base. *)
Theorem X5_file_label :
  (forall (f : File) (st : State),
      originalFileName (handleFileUpload (Some f) st)
      = Str.removeFirst ".csv" (name f)) /\
  (forall (base : string) (parsed : list RawRow) (st : State),
      noChar "." base = true ->
      originalFileName
        (handleFileUpload (Some {| name := base ++ ".csv"; rows := parsed |}) st)
      = base) /\
  Str.removeFirst ".csv" "prices.csv.backup.csv" = "prices.backup.csv".
Proof.
  split; [apply upload_file_name|]. split; [|reflexivity].
  intros base parsed st Hdot. rewrite upload_file_name. cbn [name].
  rewrite <- (append_empty base) at 2.
  rewrite <- (removeFirst_extension base "" Hdot).
  reflexivity.
Qed.

Lemma X5_file_label_witness :
  originalFileName
    (handleFileUpload (Some {| name := "products" ++ ".csv"; rows := [] |})
       initialState)
  = "products".
Proof.
  exact (proj1 (proj2 X5_file_label) "products" [] initialState eq_refl).
Defined.

(** ** The pricing pass: what it keeps *)

Lemma pricedRow_keeps method target cost row :
  sku (pricedRow method target cost row) = sku row /\
  title (pricedRow method target cost row) = title row /\
  current_price (pricedRow method target cost row) = current_price row /\
  cost_price (pricedRow method target cost row) = cost_price row /\
  forall k : string, k <> "new_price_shopify" ->
    extra (pricedRow method target cost row) !! k = extra row !! k.
Proof.
  unfold pricedRow. cbn. repeat split.
  intros k Hk. now rewrite lookup_insert_ne.
Qed.

Lemma priceRow_keeps method target row :
  sku (priceRow method target row) = sku row /\
  title (priceRow method target row) = title row /\
  current_price (priceRow method target row) = current_price row /\
  cost_price (priceRow method target row) = cost_price row /\
  forall k : string, k <> "new_price_shopify" ->
    extra (priceRow method target row) !! k = extra row !! k.
Proof.
  unfold priceRow. destruct (Num.eq _ _); [now cbn|apply pricedRow_keeps].
Qed.

(** X6. The pricing pass writes the derived fields and
    [new_price_shopify] and nothing else: it keeps the number and the
    order of the rows, and of each row the identifier, the title, the
    current price, the cost and every other pass-through column; it keeps
    the header set, the file label, the error, the target and the
    method. *)
Theorem X6_pricing_keeps_inputs (st : State) :
  length (data (calculatePrices st)) = length (data st) /\
  headers (calculatePrices st) = headers st /\
  originalFileName (calculatePrices st) = originalFileName st /\
  error (calculatePrices st) = error st /\
  marginTarget (calculatePrices st) = marginTarget st /\
  markupType (calculatePrices st) = markupType st /\
  forall (i : nat) (row' : ProductRow),
    data (calculatePrices st) !! i = Some row' ->
    exists row,
      data st !! i = Some row /\
      sku row' = sku row /\ title row' = title row /\
      current_price row' = current_price row /\
      cost_price row' = cost_price row /\
      forall k : string, k <> "new_price_shopify" ->
        extra row' !! k = extra row !! k.
Proof.
  split; [unfold calculatePrices; cbn; apply length_map|].
  repeat (split; [reflexivity|]).
  intros i row' Hi. rewrite calculatePrices_lookup in Hi.
  destruct (data st !! i) as [row|]; [|discriminate].
  injection Hi as <-. exists row. split; [reflexivity|].
  apply priceRow_keeps.
Qed.

Lemma X6_pricing_keeps_inputs_witness :
  exists row,
    data mixedState !! 1%nat = Some row /\
    sku (priceRow margin (Num.ofZ 40)
           (sampleRow "B-2" (Num.ofDecimal 125 (-1)) Num.zero)) = sku row /\
    cost_price (priceRow margin (Num.ofZ 40)
                  (sampleRow "B-2" (Num.ofDecimal 125 (-1)) Num.zero))
      = cost_price row.
Proof.
  destruct (proj2 (proj2 (proj2 (proj2 (proj2 (proj2
              (X6_pricing_keeps_inputs mixedState))))))
              1%nat
              (priceRow margin (Num.ofZ 40)
                 (sampleRow "B-2" (Num.ofDecimal 125 (-1)) Num.zero))
              eq_refl) as (row & Hrow & Hsku & _ & _ & Hcost & _).
  exists row. now repeat split.
Defined.

Lemma gt_lt_exclusive (x : Num.number) :
  Num.gt x Num.zero = true -> Num.lt x Num.zero = false.
Proof. number_cases x; now cbn. Qed.

Lemma length_filter_cons {A} (p : A -> bool) (x : A) (l : list A) :
  length (List.filter p (x :: l))
  = (Nat.b2n (p x) + length (List.filter p l))%nat.
Proof. cbn. now destruct (p x). Qed.

(** Of the three tests of the summary at most one holds of a row the
    pass has priced. *)
Lemma priceRow_one_count method target row :
  let row' := priceRow method target row in
  (Nat.b2n (Num.gt (orZero (price_change row')) Num.zero)
   + Nat.b2n (Num.lt (orZero (price_change row')) Num.zero)
   + Nat.b2n (Num.eq (Num.or_else (cost_price row') Num.zero) Num.zero)
   <= 1)%nat.
Proof.
  cbn zeta.
  destruct (Num.truthy (cost_price row)) eqn:Ht.
  - rewrite (priceRow_known_cost _ _ _ Ht).
    destruct (pricedRow_keeps method target (cost_price row) row)
      as (_ & _ & _ & -> & _).
    rewrite (or_else_truthy _ _ Ht), (truthy_eq_zero _ Ht).
    set (pc := orZero (price_change
                         (pricedRow method target (cost_price row) row))).
    destruct (Num.gt pc Num.zero) eqn:Hg.
    + rewrite (gt_lt_exclusive _ Hg). cbn. lia.
    + destruct (Num.lt pc Num.zero); cbn; lia.
  - rewrite (priceRow_zero_cost _ _ _ Ht). cbn.
    rewrite (proj2 (guard_fires_iff _) Ht). cbn. lia.
Qed.

Lemma zeroCost_test_kept method target row :
  Num.eq (Num.or_else (cost_price (priceRow method target row)) Num.zero)
    Num.zero
  = Num.eq (Num.or_else (cost_price row) Num.zero) Num.zero.
Proof. now destruct (priceRow_keeps method target row) as (_ & _ & _ & -> & _). Qed.

(** X8. After a pricing pass the summary still has the same [total] and
    the same [zeroCost] count, and the rows counted as price increases,
    as price decreases and as having no cost are disjoint:
    [priceIncreases + priceDecreases + zeroCost <= total]. *)
Theorem X8_summary_counts_after_pass (st : State) :
  total (stats (calculatePrices st)) = total (stats st) /\
  zeroCost (stats (calculatePrices st)) = zeroCost (stats st) /\
  (priceIncreases (stats (calculatePrices st))
   + priceDecreases (stats (calculatePrices st))
   + zeroCost (stats (calculatePrices st))
   <= total (stats (calculatePrices st)))%nat.
Proof.
  unfold stats, calculatePrices.
  cbn [total zeroCost priceIncreases priceDecreases data setData].
  generalize (markupType st) (marginTarget st). intros method target.
  induction (data st) as [|row d IH]; [cbn; lia|].
  destruct IH as (IH1 & IH2 & IH3).
  cbn [map]. rewrite !length_filter_cons. cbn [length].
  rewrite zeroCost_test_kept, IH1, IH2.
  split; [reflexivity|]. split; [reflexivity|].
  pose proof (priceRow_one_count method target row) as H1. cbn zeta in H1.
  rewrite zeroCost_test_kept in H1. rewrite IH1, IH2 in IH3. lia.
Qed.

(** X17. When no row of an accepted file has a cost cell, every loaded
    row has cost 0, and the pricing pass changes no price: each row gets
    its current price as new price, margin 0 and change 0. *)
Theorem X17_no_cost_column_keeps_prices (f : File) (st : State) :
  Forall (fun raw => getField raw costField = None) (rows f) ->
  error (handleFileUpload (Some f) st) = "" ->
  Forall (fun row =>
            new_price row = Some (current_price row) /\
            margin_percent row = Some Num.zero /\
            price_change row = Some Num.zero)
    (data (calculatePrices (handleFileUpload (Some f) st))).
Proof.
  intros Hcost Hok. rewrite (upload_success _ _ Hok).
  unfold calculatePrices. cbn [data setData markupType marginTarget].
  apply Forall_fmap, Forall_forall. intros row Hrow.
  apply list_elem_of_In, processedOf_In in Hrow as (i & raw & Hraw & -> & _).
  assert (Hc : getField raw costField = None).
  { rewrite Forall_forall in Hcost. apply Hcost.
    apply list_elem_of_lookup. now exists i. }
  cbn. rewrite priceRow_zero_cost; [now cbn|].
  cbn [processRow cost_price]. now rewrite Hc.
Qed.

Lemma X17_no_cost_column_keeps_prices_witness :
  Forall (fun row =>
            new_price row = Some (current_price row) /\
            margin_percent row = Some Num.zero /\
            price_change row = Some Num.zero)
    (data (calculatePrices (handleFileUpload (Some goodFile) initialState))).
Proof.
  apply (X17_no_cost_column_keeps_prices goodFile initialState).
  - repeat constructor.
  - reflexivity.
Defined.

(** ** The older copy of the pricing pass *)

Lemma Legacy_priceRow_idempotent method target row :
  Legacy.priceRow method target (Legacy.priceRow method target row)
  = Legacy.priceRow method target row.
Proof.
  unfold Legacy.priceRow, pricedRow. cbn. now rewrite insert_insert_eq.
Qed.

(** X9. The pricing pass of the older [page.tsx] is idempotent too, and
    after it every row, whatever its cost, carries a [new_price_shopify]
    text, so that its price cell in the import export is always the new
    price formatted by [toFixed(2)]. *)
Theorem X9_legacy_pass :
  (forall st : State,
      Legacy.calculatePrices (Legacy.calculatePrices st)
      = Legacy.calculatePrices st) /\
  (forall (st : State) (i : nat) (row' : ProductRow),
      data (Legacy.calculatePrices st) !! i = Some row' ->
      exists p,
        new_price row' = Some p /\
        exportPrice row' = CString (Fmt.toFixed 2 p)).
Proof.
  split.
  - intros st. unfold Legacy.calculatePrices, setData. cbn. f_equal.
    rewrite <- list_fmap_compose. apply list_fmap_ext.
    intros _ row _. apply Legacy_priceRow_idempotent.
  - intros st i row' Hi. unfold Legacy.calculatePrices in Hi. cbn in Hi.
    rewrite list_lookup_fmap in Hi.
    destruct (data st !! i) as [row|]; [|discriminate].
    injection Hi as <-. unfold Legacy.priceRow.
    eexists. split; [reflexivity|]. apply exportPrice_pricedRow.
Qed.

Lemma X9_legacy_pass_witness :
  exists p,
    new_price (Legacy.priceRow margin (Num.ofZ 40)
                 (sampleRow "B-2" (Num.ofZ 10) Num.zero)) = Some p /\
    exportPrice (Legacy.priceRow margin (Num.ofZ 40)
                   (sampleRow "B-2" (Num.ofZ 10) Num.zero))
      = CString (Fmt.toFixed 2 p).
Proof.
  exact (proj2 X9_legacy_pass
           (sampleState margin (Num.ofZ 40)
              [sampleRow "B-2" (Num.ofZ 10) Num.zero])
           0%nat
           (Legacy.priceRow margin (Num.ofZ 40)
              (sampleRow "B-2" (Num.ofZ 10) Num.zero))
           eq_refl).
Defined.

(** ** The handle of the import export *)

Lemma hyphenate_slug (s : string) (inRun : bool) :
  allChars isSlugChar (Str.hyphenate inRun s) = true /\
  noHyphenPair inRun (Str.hyphenate inRun s) = true.
Proof.
  revert inRun. induction s as [|c r IH]; intros inRun; [now split|].
  cbn [Str.hyphenate].
  destruct (Str.isLowerAlnum c) eqn:Hc.
  - destruct (IH false) as [Ha Hn]. split.
    + cbn [allChars]. unfold isSlugChar at 1. now rewrite Hc, Ha.
    + cbn [noHyphenPair].
      assert (E : Ascii.eqb c "-" = false)
        by (revert Hc; clear; destruct c as [[] [] [] [] [] [] [] []]; now cbn).
      now rewrite E.
  - destruct inRun; [apply IH|].
    destruct (IH true) as [Ha Hn]. split.
    + cbn [allChars]. now rewrite Ha.
    + cbn [noHyphenPair]. now rewrite Hn.
Qed.

Lemma slug_char_lower (c : ascii) :
  isSlugChar c = true -> Str.lowerChar c = c.
Proof. destruct c as [[] [] [] [] [] [] [] []]; now cbn. Qed.

Lemma slug_toLowerCase (h : string) :
  allChars isSlugChar h = true -> Str.toLowerCase h = h.
Proof.
  induction h as [|c r IH]; [reflexivity|].
  cbn [allChars Str.toLowerCase]. intros H.
  apply andb_true_iff in H as [Hc Hr].
  now rewrite (slug_char_lower c Hc), IH.
Qed.

Lemma slug_hyphenate (h : string) (prev : bool) :
  allChars isSlugChar h = true -> noHyphenPair prev h = true ->
  Str.hyphenate prev h = h.
Proof.
  revert prev. induction h as [|c r IH]; intros prev Ha Hn; [reflexivity|].
  cbn [allChars] in Ha. apply andb_true_iff in Ha as [Hc Hr].
  cbn [noHyphenPair] in Hn. cbn [Str.hyphenate].
  destruct (Str.isLowerAlnum c) eqn:Hl.
  - assert (E : Ascii.eqb c "-" = false)
      by (revert Hl; clear; destruct c as [[] [] [] [] [] [] [] []]; now cbn).
    rewrite E in Hn. now rewrite (IH false Hr Hn).
  - unfold isSlugChar in Hc. rewrite Hl in Hc. cbn [orb] in Hc.
    rewrite Hc in Hn. apply andb_true_iff in Hn as [Hp Hn].
    apply negb_true_iff in Hp. subst prev.
    apply Ascii.eqb_eq in Hc. subst c. now rewrite (IH true Hr Hn).
Qed.

(** X10. The handle derived from an identifier consists of lower-case
    letters, digits and hyphens only, with no two hyphens next to each
    other; and deriving a handle from a derived handle gives it back. *)
Theorem X10_derived_handle (id : string) :
  let h := Str.hyphenate false (Str.toLowerCase id) in
  allChars isSlugChar h = true /\
  noHyphenPair false h = true /\
  Str.hyphenate false (Str.toLowerCase h) = h.
Proof.
  cbn zeta.
  destruct (hyphenate_slug (Str.toLowerCase id) false) as [Ha Hn].
  split; [exact Ha|]. split; [exact Hn|].
  rewrite (slug_toLowerCase _ Ha). now apply slug_hyphenate.
Qed.

Lemma exportHandle_priceRow method target row :
  exportHandle (priceRow method target row) = exportHandle row.
Proof.
  unfold exportHandle.
  destruct (priceRow_keeps method target row) as (-> & _ & _ & _ & Hk).
  now rewrite Hk.
Qed.

(** X11. The handle of an exported row is the row's own [Handle] cell
    when the uploaded file has a non-empty one, as it was typed, before
    and after a pricing pass; otherwise it is the handle derived from the
    identifier, which the pass does not change either. *)
Theorem X11_handle_pass_through :
  (forall (i : nat) (raw : RawRow) (h : string) method target,
      getField raw "Handle" = Some h -> h <> "" ->
      Handle (shopifyRow (processRow i raw)) = h /\
      Handle (shopifyRow (priceRow method target (processRow i raw))) = h) /\
  (forall (row : ProductRow) method target,
      Handle (shopifyRow (priceRow method target row))
      = Handle (shopifyRow row)) /\
  (forall row : ProductRow,
      extra row !! "Handle" = None ->
      Handle (shopifyRow row) = Str.hyphenate false (Str.toLowerCase (sku row))).
Proof.
  assert (Hkeep : forall (row : ProductRow) method target,
             Handle (shopifyRow (priceRow method target row))
             = Handle (shopifyRow row)).
  { intros. cbn [shopifyRow Handle]. apply exportHandle_priceRow. }
  split; [|split; [exact Hkeep|]].
  - intros i raw h method target Hh Hne. rewrite Hkeep.
    assert (E : Handle (shopifyRow (processRow i raw)) = h); [|now split].
    cbn [shopifyRow Handle]. unfold exportHandle, processRow. cbn [extra sku].
    rewrite lookup_list_to_map_getField, Hh.
    destruct h; [now destruct Hne|reflexivity].
  - intros row Hnone. cbn [shopifyRow Handle]. unfold exportHandle.
    now rewrite Hnone.
Qed.

Lemma X11_handle_pass_through_witness :
  Handle (shopifyRow (processRow 0
            [("Handle", "Blue Oar"); ("Variant SKU", "OAR 1");
             ("Variant Price", "12")])) = "Blue Oar" /\
  Handle (shopifyRow (sampleRow "OAR 1/b" Num.zero Num.zero)) = "oar-1-b".
Proof.
  split.
  - exact (proj1 (proj1 X11_handle_pass_through 0%nat
                    [("Handle", "Blue Oar"); ("Variant SKU", "OAR 1");
                     ("Variant Price", "12")] "Blue Oar" margin Num.zero
                    eq_refl ltac:(discriminate))).
  - exact (proj2 (proj2 X11_handle_pass_through)
             (sampleRow "OAR 1/b" Num.zero Num.zero) eq_refl).
Defined.

(** ** The preview table *)


(** ** [trim] *)

Lemma trimEnd_idempotent (s : string) : Str.trimEnd (Str.trimEnd s) = Str.trimEnd s.
Proof.
  induction s as [|c r IH]; [reflexivity|].
  cbn [Str.trimEnd].
  destruct (Str.isWhiteSpace c && Str.isEmpty (Str.trimEnd r)) eqn:E;
    [reflexivity|].
  cbn [Str.trimEnd]. now rewrite IH, E.
Qed.

Lemma trimEnd_trimStart (u : string) :
  Str.trimEnd u = u -> Str.trimEnd (Str.trimStart u) = Str.trimStart u.
Proof.
  induction u as [|c r IH]; [reflexivity|].
  intros H. cbn [Str.trimStart].
  destruct (Str.isWhiteSpace c) eqn:Hc; [|exact H].
  apply IH. cbn [Str.trimEnd] in H.
  destruct (Str.isWhiteSpace c && Str.isEmpty (Str.trimEnd r));
    [discriminate|now injection H].
Qed.

Lemma trimStart_idempotent (s : string) :
  Str.trimStart (Str.trimStart s) = Str.trimStart s.
Proof.
  induction s as [|c r IH]; [reflexivity|].
  cbn [Str.trimStart]. destruct (Str.isWhiteSpace c) eqn:Hc; [exact IH|].
  cbn [Str.trimStart]. now rewrite Hc.
Qed.

Lemma trim_idempotent (s : string) : Str.trim (Str.trim s) = Str.trim s.
Proof.
  unfold Str.trim.
  rewrite (trimEnd_trimStart _ (trimEnd_idempotent s)).
  apply trimStart_idempotent.
Qed.

(** ** Invariants of the reachable states *)

Lemma processRow_wellFormed (i : nat) (raw : RawRow) :
  keepRow (processRow i raw) = true -> rowWellFormed (processRow i raw).
Proof.
  intros Hk. pose proof Hk as Hk'.
  apply keepRow_processRow in Hk' as (v & Hv & Hne & Hp).
  assert (Hsku : sku (processRow i raw) = Str.trim v).
  { cbn [processRow sku]. unfold trimmedOr. rewrite Hv.
    destruct v; [now destruct Hne|reflexivity]. }
  unfold rowWellFormed. rewrite Hsku.
  split; [apply cleanNumber_range|]. split; [apply cleanNumber_range|].
  split; [exact Hne|]. split; [apply trim_idempotent|exact Hp].
Qed.

Lemma priceRow_wellFormed method target row :
  rowWellFormed row -> rowWellFormed (priceRow method target row).
Proof.
  unfold rowWellFormed.
  now destruct (priceRow_keeps method target row) as (-> & _ & -> & -> & _).
Qed.

Lemma priceRow_allDerived method target row :
  allDerived (priceRow method target row).
Proof.
  unfold allDerived, priceRow.
  destruct (Num.eq _ _); cbn; repeat split; eauto.
Qed.

Lemma processRow_noDerived (i : nat) (raw : RawRow) : noDerived (processRow i raw).
Proof. now cbn. Qed.

(** What an upload leaves as row set: the rows that were there, or rows
    fresh from [processRow] that passed the filter. *)
Lemma upload_data (file : option File) (st : State) :
  data (handleFileUpload file st) = data st \/
  exists f, file = Some f /\ data (handleFileUpload file st) = processedOf (rows f).
Proof.
  destruct file as [f|]; [|now left].
  pose proof (handleFileUpload_cases f st) as H. cbn zeta in H.
  destruct (rows f) as [|first rest] eqn:Hr; [left; now rewrite H|].
  destruct (missingColumnsOf (keys first)); [|left; now rewrite H].
  destruct (processedOf (first :: rest)) eqn:Hp; [left; now rewrite H|].
  right. exists f. split; [reflexivity|]. now rewrite H, Hr, Hp.
Qed.

Lemma processedOf_Forall (P : ProductRow -> Prop) (parsed : list RawRow) :
  (forall i raw, keepRow (processRow i raw) = true -> P (processRow i raw)) ->
  Forall P (processedOf parsed).
Proof.
  intros H. apply Forall_forall. intros row Hrow.
  apply list_elem_of_In, processedOf_In in Hrow as (i & raw & _ & -> & Hk).
  now apply H.
Qed.

(** X12. In every state the component can reach the target is a number:
    the input handler stores [parseFloat(text) || 0], so an empty or
    unparsable entry gives 0, never NaN. *)
Theorem X12_target_is_a_number (st : State) :
  reachable st -> Num.isNaN (marginTarget st) = false.
Proof.
  induction 1 as [|ev st Hst IH]; [reflexivity|].
  destruct ev as [file| | |value|method]; cbn [handle].
  - now destruct (upload_keeps_parameters file st) as [-> _].
  - exact IH.
  - exact IH.
  - cbn. unfold Num.or_else.
    now destruct (Str.parseFloat value).
  - exact IH.
Qed.

Lemma X12_target_is_a_number_witness :
  Num.isNaN (marginTarget (handle (TargetChange "abc") initialState)) = false /\
  marginTarget (handle (TargetChange "abc") initialState) = Num.zero /\
  marginTarget (handle (TargetChange "35.5") initialState)
    = Num.ofDecimal 355 (-1).
Proof.
  split; [|split; reflexivity].
  apply X12_target_is_a_number. apply reachable_handle, reachable_initial.
Defined.

(** X13. In every reachable state each row has a current price and a
    cost that are numbers (not NaN), and an identifier that is not empty,
    carries no white space around it and does not begin with [ROW-]. *)
Theorem X13_rows_well_formed (st : State) :
  reachable st -> Forall rowWellFormed (data st).
Proof.
  induction 1 as [|ev st Hst IH]; [constructor|].
  destruct ev as [file| | |value|method]; cbn [handle]; try exact IH.
  - destruct (upload_data file st) as [->|(f & _ & ->)]; [exact IH|].
    apply processedOf_Forall. intros i raw. apply processRow_wellFormed.
  - unfold calculatePrices. cbn [data setData].
    apply Forall_fmap. eapply Forall_impl; [exact IH|].
    intros row. apply priceRow_wellFormed.
  - constructor.
Qed.

Lemma X13_rows_well_formed_witness :
  Forall rowWellFormed
    (data (handle Calculate (handle (Upload (Some rowPrefixFile)) initialState))).
Proof.
  apply X13_rows_well_formed.
  do 2 apply reachable_handle. apply reachable_initial.
Defined.

Lemma handle_uniform (ev : Event) (st : State) :
  Forall noDerived (data st) \/ Forall allDerived (data st) ->
  Forall noDerived (data (handle ev st)) \/
  Forall allDerived (data (handle ev st)).
Proof.
  intros IH.
  destruct ev as [file| | |value|method]; cbn [handle]; try exact IH.
  - destruct (upload_data file st) as [->|(f & _ & ->)]; [exact IH|].
    left. apply processedOf_Forall. intros i raw _. apply processRow_noDerived.
  - right. unfold calculatePrices. cbn [data setData].
    apply Forall_fmap, Forall_forall. intros row _.
    apply priceRow_allDerived.
  - left. constructor.
Qed.

Lemma processRow_unpriced (i : nat) (raw : RawRow) :
  plainRaw raw -> unpriced (processRow i raw).
Proof.
  intros (Hn & Hm & Hc). split; [apply processRow_noDerived|].
  cbn [processRow extra]. rewrite !lookup_list_to_map_getField.
  now rewrite Hn, Hm, Hc.
Qed.

Lemma handle_plain_uniform (ev : Event) (st : State) :
  plainEvent ev ->
  Forall unpriced (data st) \/ Forall allDerived (data st) ->
  Forall unpriced (data (handle ev st)) \/
  Forall allDerived (data (handle ev st)).
Proof.
  intros Hev IH.
  destruct ev as [file| | |value|method]; cbn [handle]; try exact IH.
  - destruct (upload_data file st) as [->|(f & -> & ->)]; [exact IH|].
    left. apply Forall_forall. intros row Hrow.
    apply list_elem_of_In, processedOf_In in Hrow as (i & raw & Hraw & -> & _).
    apply processRow_unpriced.
    cbn [plainEvent] in Hev. rewrite Forall_forall in Hev. apply Hev.
    apply list_elem_of_lookup. now exists i.
  - right. unfold calculatePrices. cbn [data setData].
    apply Forall_fmap, Forall_forall. intros row _.
    apply priceRow_allDerived.
  - left. constructor.
Qed.

(** X7. As long as no uploaded file has a column named [new_price],
    [margin_percent] or [price_change], the rows of every state the
    component reaches are all of one kind: either no row has any of the
    three derived fields (loaded, not priced), or every row has all
    three as numbers (priced).  No such state mixes priced and unpriced
    rows, and no row has only some of the three.  (A file with such a
    column brings its text into the rows, and the statement does not
    cover it.) *)
Theorem X7_derived_fields_uniform (st : State) :
  reachablePlain st ->
  Forall unpriced (data st) \/ Forall allDerived (data st).
Proof.
  induction 1 as [|ev st Hev Hst IH].
  - left. constructor.
  - now apply handle_plain_uniform.
Qed.

Lemma X7_derived_fields_uniform_witness :
  Forall unpriced (data (handle (Upload (Some goodFile)) initialState)) \/
  Forall allDerived (data (handle (Upload (Some goodFile)) initialState)).
Proof.
  apply X7_derived_fields_uniform.
  apply reachablePlain_handle; [|apply reachablePlain_initial].
  repeat constructor.
Defined.

Lemma exportPrice_defined (row : ProductRow) :
  is_Some (new_price row) -> exportPrice row <> CUndefined.
Proof.
  intros [p Hp]. unfold exportPrice. rewrite Hp.
  destruct (extra row !! "new_price_shopify") as [s|]; [|discriminate].
  destruct (Str.truthy s); discriminate.
Qed.

(** X15. Whenever the page offers the downloads, that is when the first
    row has a truthy [new_price], every row of the import export has a
    price: no cell of the price column is undefined.  The same holds
    right after any pricing pass. *)
Theorem X15_offered_export_has_prices :
  (forall st : State,
      reachable st -> showResults st = true ->
      Forall (fun r => Variant_Price r <> CUndefined)
        (downloadShopifyFormat st)) /\
  (forall st : State,
      Forall (fun r => Variant_Price r <> CUndefined)
        (downloadShopifyFormat (calculatePrices st))).
Proof.
  assert (Hall : forall d : list ProductRow,
             Forall allDerived d ->
             Forall (fun r => Variant_Price r <> CUndefined)
               (map shopifyRow d)).
  { intros d Hd. apply Forall_fmap. eapply Forall_impl; [exact Hd|].
    intros row (Hp & _). cbn. now apply exportPrice_defined. }
  split.
  - intros st Hst Hshow. unfold downloadShopifyFormat. cbn zeta.
    apply Hall. unfold showResults in Hshow.
    assert (Hu : Forall noDerived (data st) \/ Forall allDerived (data st)).
    { clear Hshow. induction Hst as [|ev st Hst IH];
        [left; constructor|apply handle_uniform, IH]. }
    destruct Hu as [Hnone|Hsome]; [|exact Hsome].
    destruct (data st) as [|row d]; [discriminate|].
    inversion Hnone as [|? ? (Hp & _) _]; subst.
    rewrite Hp in Hshow. discriminate.
  - intros st. unfold downloadShopifyFormat, calculatePrices. cbn.
    apply Hall, Forall_fmap, Forall_forall. intros row _.
    apply priceRow_allDerived.
Qed.

Lemma X15_offered_export_has_prices_witness :
  Forall (fun r => Variant_Price r <> CUndefined)
    (downloadShopifyFormat
       (handle Calculate (handle (Upload (Some goodFile)) initialState))).
Proof.
  apply (proj1 X15_offered_export_has_prices).
  - do 2 apply reachable_handle. apply reachable_initial.
  - reflexivity.
Defined.

(** X18. Pressing Calculate does not always bring up the summary and the
    downloads: they are shown when the new price of the first row is
    truthy.  If the first row has no cost, its new price is its current
    price, and the results stay hidden exactly when that price is 0 (or
    -0 or NaN); with no rows they are hidden too. *)
Theorem X18_results_shown_after_pass :
  (forall (st : State) (row : ProductRow) (d : list ProductRow),
      data st = row :: d ->
      Num.truthy (cost_price row) = false ->
      showResults (calculatePrices st) = Num.truthy (current_price row)) /\
  (forall (st : State) (row : ProductRow) (d : list ProductRow),
      data st = row :: d ->
      Num.truthy (cost_price row) = true ->
      showResults (calculatePrices st)
      = Num.truthy (round2 (rawPrice (markupType st) (marginTarget st)
                              (cost_price row)))) /\
  (forall st : State, data st = [] -> showResults (calculatePrices st) = false).
Proof.
  split; [|split].
  - intros st row d Hd Hc. unfold showResults, calculatePrices.
    cbn [data setData]. rewrite Hd. cbn [map].
    now rewrite (priceRow_zero_cost _ _ _ Hc).
  - intros st row d Hd Hc. unfold showResults, calculatePrices.
    cbn [data setData]. rewrite Hd. cbn [map].
    now rewrite (priceRow_known_cost _ _ _ Hc).
  - intros st Hd. unfold showResults, calculatePrices.
    cbn [data setData]. now rewrite Hd.
Qed.

Lemma X18_results_shown_after_pass_witness :
  showResults
    (calculatePrices
       (sampleState margin (Num.ofZ 40)
          [sampleRow "F-0" Num.zero Num.zero;
           sampleRow "A-1" (Num.ofZ 90) (Num.ofZ 60)])) = false.
Proof.
  exact (proj1 X18_results_shown_after_pass
           (sampleState margin (Num.ofZ 40)
              [sampleRow "F-0" Num.zero Num.zero;
               sampleRow "A-1" (Num.ofZ 90) (Num.ofZ 60)])
           (sampleRow "F-0" Num.zero Num.zero)
           [sampleRow "A-1" (Num.ofZ 90) (Num.ofZ 60)]
           eq_refl eq_refl).
Defined.

(** ** Reset *)

(** X16. Upload New File clears the rows, the headers, the file label and
    the error, and keeps the target and the method.  It wipes whatever an
    upload or a pricing pass did before it: the state after the reset is
    the same as if they had not happened.  After it nothing is shown as
    result and the summary counts are 0. *)
Theorem X16_reset :
  (forall (file : option File) (st : State),
      resetAll (handleFileUpload file st) = resetAll st) /\
  (forall st : State, resetAll (calculatePrices st) = resetAll st) /\
  (forall st : State, resetAll (resetAll st) = resetAll st) /\
  (forall st : State,
      resetAll st =
      {| data := []; headers := []; marginTarget := marginTarget st;
         markupType := markupType st; originalFileName := "";
         error := "" |} /\
      showResults (resetAll st) = false /\
      stats (resetAll st) =
      {| total := 0; avgMargin := CNumber Num.zero; priceIncreases := 0;
         priceDecreases := 0; zeroCost := 0 |}).
Proof.
  split; [|split; [|split]]; try reflexivity.
  - intros file st. unfold resetAll, setError, setOriginalFileName,
      setHeaders, setData. cbn.
    now destruct (upload_keeps_parameters file st) as [-> ->].
  - intros st. now repeat split.
Qed.

(** ** Ingestion: order and duplicates *)

Lemma trim_empty_cell (v : string) : Str.truthy v = false -> Str.trim v = "".
Proof. destruct v; [reflexivity|discriminate]. Qed.

(** The row index only names the placeholder of a row without
    identifier, and such a row is dropped: the index plays no part in
    what is loaded. *)
Lemma processRow_index_irrelevant (i j : nat) (raw : RawRow) :
  keepRow (processRow i raw) = keepRow (processRow j raw) /\
  (keepRow (processRow i raw) = true -> processRow i raw = processRow j raw) /\
  (if keepRow (processRow i raw) then Some (sku (processRow i raw)) else None)
  = identifierOf raw.
Proof.
  unfold keepRow, processRow, identifierOf. cbn [sku]. unfold trimmedOr.
  destruct (getField raw skuField) as [v|].
  - destruct (Str.truthy v) eqn:Hv.
    + repeat split.
    + rewrite !startsWith_placeholder, !andb_false_r.
      rewrite (trim_empty_cell v Hv). now repeat split.
  - rewrite !startsWith_placeholder, !andb_false_r. now repeat split.
Qed.

Lemma processed_from (k : nat) (parsed : list RawRow) :
  map sku (List.filter keepRow (imap (fun i => processRow (k + i)) parsed))
  = omap identifierOf parsed.
Proof.
  revert k. induction parsed as [|raw parsed IH]; intros k; [reflexivity|].
  rewrite imap_cons. cbn [List.filter omap list_omap].
  destruct (processRow_index_irrelevant (k + 0) 0 raw) as (_ & _ & Hid).
  assert (Hrest :
            imap ((fun i => processRow (k + i)) ∘ S) parsed
            = imap (fun i => processRow (S k + i)) parsed).
  { apply imap_ext. intros i x _. cbn. f_equal. lia. }
  rewrite Hrest. rewrite <- Hid.
  destruct (keepRow (processRow (k + 0) raw)); cbn [map]; now rewrite IH.
Qed.

(** X4. The identifiers of the loaded rows are, in the order of the
    file and with repetitions, the trimmed identifier cells that are not
    empty and do not begin with [ROW-]: ingestion neither reorders rows
    nor merges or rejects duplicates, and never loads more rows than the
    file has. *)
Theorem X4_loaded_identifiers (parsed : list RawRow) :
  map sku (processedOf parsed) = omap identifierOf parsed /\
  (length (processedOf parsed) <= length parsed)%nat.
Proof.
  split.
  - unfold processedOf. apply (processed_from 0).
  - unfold processedOf.
    rewrite <- (length_imap processRow parsed).
    apply filter_length_le.
Qed.
